(** * Xingji water-jet dashboard: the transformation core of [data_processor.py]

    A shallow embedding of [DataProcessor] (backend/data_processor.py):
    [temperature_to_percentage], [process_raw_data],
    [generate_time_series_data], [generate_target_timestamps],
    [get_recent_dates], [get_empty_time_series] and
    [process_and_export_json], followed by the properties the specification
    states about them.

    Modelling conventions.
    - A Python [float] is a [pyfloat]: a finite value carried by the rational
      it denotes, or one of [+inf], [-inf], [nan].  Arithmetic on finite
      values is exact; comparisons with [nan] are false, as in Python.
    - A raw record is a Python [dict] with string keys: [gmap string pyval].
    - Exceptions are explicit: a computation that may raise returns a
      [result].
    - The clock, the float-literal parser of the [float] builtin and the
      spline fit of SciPy are outside the repository; they are the fields of
      a [runtime] record that every operation takes as an argument.  One
      call of the processor sees one reading of the clock: the calls of
      [datetime.now()] it makes all return the same instant. *)

From Stdlib Require Import ZArith QArith Qround Lia Lqa List Sorting.Sorted Sorting.Permutation.
From stdpp Require Import base option list strings gmap.

Local Open Scope Z_scope.

(** ** Exceptions *)

Inductive exn : Set :=
  | ValueError
  | KeyError
  | TypeError
  | IndexError
  | OverflowError.

Inductive result (A : Type) : Type :=
  | Ok (a : A)
  | Raise (e : exn).

Arguments Ok {A} a.
Arguments Raise {A} e.

#[global] Instance result_ret : MRet result := fun A a => Ok a.

#[global] Instance result_bind : MBind result := fun A B k m =>
  match m with
  | Ok a => k a
  | Raise e => Raise e
  end.

(** ** Python floats *)

Inductive pyfloat : Type :=
  | Fin (q : Q)
  | PInf
  | NInf
  | NaN.

Definition is_nan (x : pyfloat) : bool :=
  match x with NaN => true | _ => false end.

(** [x <= y] on floats; false as soon as one side is [nan]. *)
Definition fle (x y : pyfloat) : bool :=
  match x, y with
  | NaN, _ | _, NaN => false
  | NInf, _ => true
  | _, PInf => true
  | Fin a, Fin b => Qle_bool a b
  | _, _ => false
  end.

(** [x < y] on floats. *)
Definition flt (x y : pyfloat) : bool :=
  match x, y with
  | NaN, _ | _, NaN => false
  | PInf, _ => false
  | _, NInf => false
  | Fin a, Fin b => negb (Qle_bool b a)
  | _, _ => true
  end.

(** [x >= y] is [y <= x]. *)
Definition fge (x y : pyfloat) : bool := fle y x.

(** [x - y]. *)
Definition fsub (x y : pyfloat) : pyfloat :=
  match x, y with
  | NaN, _ | _, NaN => NaN
  | Fin a, Fin b => Fin (a - b)
  | PInf, PInf | NInf, NInf => NaN
  | PInf, _ | _, NInf => PInf
  | NInf, _ | _, PInf => NInf
  end.

(** [x / y] for a finite, non-zero divisor [y], the only case the processor
    meets (the divisor is [max_temp - min_temp]).  Python raises
    [ZeroDivisionError] on a zero divisor; that case is given [nan] here. *)
Definition fdiv (x y : pyfloat) : pyfloat :=
  match x, y with
  | NaN, _ | _, NaN => NaN
  | Fin a, Fin b => if Qeq_bool b 0 then NaN else Fin (a / b)
  | Fin _, _ => Fin 0
  | PInf, Fin b => if Qle_bool b 0 then NInf else PInf
  | NInf, Fin b => if Qle_bool b 0 then PInf else NInf
  | _, _ => NaN
  end.

(** The nearest integer to [x], ties going to the even one. *)
Definition round_half_even (x : Q) : Z :=
  let f := Qfloor x in
  match Qcompare (x - inject_Z f) (1 # 2) with
  | Lt => f
  | Gt => f + 1
  | Eq => if Z.even f then f else f + 1
  end.

(** The builtin [round(x, 3)] on a float: the multiple of [1/1000] nearest
    to [x], ties to even; infinities and [nan] round to themselves. *)
Definition round3 (x : pyfloat) : pyfloat :=
  match x with
  | Fin q => Fin (Qred (round_half_even (q * 1000) # 1000))
  | _ => x
  end.

(** [numpy.clip(x, 0, 1)], that is [minimum(maximum(x, 0), 1)]; [nan]
    propagates. *)
Definition clip01 (x : pyfloat) : pyfloat :=
  match x with
  | NaN => NaN
  | _ => if flt x (Fin 0) then Fin 0 else if flt (Fin 1) x then Fin 1 else x
  end.

(** ** The normalizer *)

Definition min_temp : pyfloat := Fin 25.
Definition max_temp : pyfloat := Fin (99 # 2).

(** [DataProcessor.temperature_to_percentage]. *)
Definition temperature_to_percentage (temperature : pyfloat) : pyfloat :=
  if fle temperature min_temp then Fin 0
  else if fge temperature max_temp then Fin 1
  else
    let percentage := fdiv (fsub temperature min_temp) (fsub max_temp min_temp) in
    round3 percentage.

(** The linear part of the map, before rounding, and the number of
    thousandths it rounds to. *)
Definition linear_part (t : Q) : Q := ((t - 25) / (49 # 2))%Q.

Definition thousandths (t : Q) : Z := round_half_even (linear_part t * 1000).

(** ** Python values and raw records *)

(** The scalar values a raw record holds: [None], [bool], [int], [float]
    and [str]. *)
Inductive pyval : Type :=
  | PyNone
  | PyBool (b : bool)
  | PyInt (z : Z)
  | PyFloat (f : pyfloat)
  | PyStr (s : string).

(** What lies outside the repository. *)
Record runtime : Type := {
  (** [float(s)] on a [str]; [None] when the builtin raises [ValueError]. *)
  float_of_str : string -> option pyfloat;
  (** the cubic spline SciPy fits through at least four samples, or the
      exception it raises *)
  make_interp_spline : list pyfloat -> list pyfloat -> result (pyfloat -> pyfloat);
  (** [int(datetime.now().timestamp())] *)
  now_epoch : Z;
  (** [datetime.now().isoformat()] *)
  now_iso : string;
  (** [int(today.replace(hour=h).timestamp())], [today] being local midnight *)
  hour_epoch : Z -> Z;
  (** [(datetime.now() - timedelta(days=i)).strftime("%Y-%m-%d")] *)
  date_str : nat -> string
}.

(** An [int] converts to [float] unless it rounds past the largest double. *)
Definition float_int_limit : Z := 2 ^ 1024 - 2 ^ 970.

(** The builtin [float(v)]. *)
Definition py_float (rt : runtime) (v : pyval) : result pyfloat :=
  match v with
  | PyNone => Raise TypeError
  | PyBool b => Ok (Fin (if b then 1 else 0))
  | PyInt z =>
      if Z.abs z <? float_int_limit then Ok (Fin (inject_Z z))
      else Raise OverflowError
  | PyFloat f => Ok f
  | PyStr s =>
      match float_of_str rt s with
      | Some f => Ok f
      | None => Raise ValueError
      end
  end.

(** [key in d]. *)
Definition contains (d : gmap string pyval) (key : string) : bool :=
  bool_decide (is_Some (d !! key)).

(** [d[key]]. *)
Definition subscript (d : gmap string pyval) (key : string) : result pyval :=
  match d !! key with
  | Some v => Ok v
  | None => Raise KeyError
  end.

(** [d.get(key, dflt)]. *)
Definition get (d : gmap string pyval) (key : string) (dflt : pyval) : pyval :=
  default dflt (d !! key).

(** [v == s] for a [str] literal [s]. *)
Definition eq_str (v : pyval) (s : string) : bool :=
  match v with
  | PyStr s' => String.eqb s' s
  | _ => false
  end.

(** ** The sanitizer *)

(** The dict [processed_point]. *)
Record point : Type := {
  pt_timestamp : pyval;
  pt_time : pyval;
  pt_temperature : pyfloat;
  pt_fault_probability : pyfloat;
  pt_original_data : gmap string pyval
}.

(** The body of the [try] of [process_raw_data] for one record: the point
    to append, [None] when no temperature was found. *)
Definition process_point (rt : runtime) (data_point : gmap string pyval)
  : result (option point) :=
  temperature ←
    (if contains data_point "temperature" then
       v ← subscript data_point "temperature"; f ← py_float rt v; Ok (Some f)
     else if contains data_point "value"
             && eq_str (get data_point "field" PyNone) "temperature" then
       v ← subscript data_point "value"; f ← py_float rt v; Ok (Some f)
     else if contains data_point "value" then
       v ← subscript data_point "value"; f ← py_float rt v; Ok (Some f)
     else Ok None);
  match temperature with
  | Some temperature =>
      let percentage := temperature_to_percentage temperature in
      Ok (Some {| pt_timestamp := get data_point "timestamp" (PyInt 0);
                  pt_time := get data_point "time" (PyStr "");
                  pt_temperature := temperature;
                  pt_fault_probability := percentage;
                  pt_original_data := data_point |})
  | None => Ok None
  end.

(** [except (ValueError, KeyError, TypeError)]. *)
Definition caught (e : exn) : bool :=
  match e with
  | ValueError | KeyError | TypeError => true
  | _ => false
  end.

(** The [for] loop of [process_raw_data]: the list [processed_data] before
    it is sorted. *)
Fixpoint collect_points (rt : runtime) (raw_data : list (gmap string pyval))
  : result (list point) :=
  match raw_data with
  | [] => Ok []
  | data_point :: rest =>
      match process_point rt data_point with
      | Ok (Some p) => ps ← collect_points rt rest; Ok (p :: ps)
      | Ok None => collect_points rt rest
      | Raise e => if caught e then collect_points rt rest else Raise e
      end
  end.

(** The number a value is compared as, for [bool], [int] and [float]. *)
Definition as_number (v : pyval) : option pyfloat :=
  match v with
  | PyBool b => Some (Fin (if b then 1 else 0))
  | PyInt z => Some (Fin (inject_Z z))
  | PyFloat f => Some f
  | _ => None
  end.

(** [a < b]: numbers compare by value, strings lexicographically, anything
    else raises [TypeError]. *)
Definition py_lt (a b : pyval) : result bool :=
  match as_number a, as_number b with
  | Some x, Some y => Ok (flt x y)
  | _, _ =>
      match a, b with
      | PyStr s, PyStr t => Ok (String.ltb s t)
      | _, _ => Raise TypeError
      end
  end.

(** [list.sort(key=lambda x: x['timestamp'])]: a stable sort that only asks
    [<] of the keys and lets its [TypeError] through.  [insert_point p l]
    puts [p], which stood before every element of the sorted [l], in front
    of the first element that is not smaller than it. *)
Fixpoint insert_point (p : point) (l : list point) : result (list point) :=
  match l with
  | [] => Ok [p]
  | y :: l' =>
      match py_lt (pt_timestamp y) (pt_timestamp p) with
      | Ok true => r ← insert_point p l'; Ok (y :: r)
      | Ok false => Ok (p :: y :: l')
      | Raise e => Raise e
      end
  end.

Fixpoint sort_by_timestamp (l : list point) : result (list point) :=
  match l with
  | [] => Ok []
  | p :: rest => sorted ← sort_by_timestamp rest; insert_point p sorted
  end.

(** [DataProcessor.process_raw_data]. *)
Definition process_raw_data (rt : runtime) (raw_data : list (gmap string pyval))
  : result (list point) :=
  processed_data ← collect_points rt raw_data;
  sort_by_timestamp processed_data.

(** ** The resampler and the report builder *)

Record series_point : Type := {
  sp_time : string;
  sp_probability : pyfloat;
  sp_timestamp : Z
}.

Record latest : Type := {
  ld_temperature : pyfloat;
  ld_faultProbability : pyfloat;
  ld_timestamp : pyval
}.

Record report : Type := {
  timeSeries : list series_point;
  latestData : latest;
  availableWaterJets : list string;
  availableDates : list string
}.

Definition time_labels : list string :=
  ["02am"; "04am"; "06am"; "08am"; "10am";
   "12pm"; "02pm"; "04pm"; "06pm"; "08pm"; "10pm"].

Definition target_hours : list Z := [2; 4; 6; 8; 10; 12; 14; 16; 18; 20; 22].

(** [DataProcessor.generate_target_timestamps]. *)
Definition generate_target_timestamps (rt : runtime) : list Z :=
  map (hour_epoch rt) target_hours.

(** [DataProcessor.get_recent_dates]. *)
Definition get_recent_dates (rt : runtime) : list string :=
  map (date_str rt) (seq 0 7).

(** [DataProcessor.get_empty_time_series]. *)
Definition get_empty_time_series (rt : runtime) : report :=
  {| timeSeries :=
       map (fun time_label =>
              {| sp_time := time_label;
                 sp_probability := Fin 0;
                 sp_timestamp := now_epoch rt |})
           time_labels;
     latestData :=
       {| ld_temperature := Fin 25;
          ld_faultProbability := Fin 0;
          ld_timestamp := PyStr (now_iso rt) |};
     availableWaterJets := ["WaterJet_01"];
     availableDates := get_recent_dates rt |}.

(** [numpy] turns the timestamps into an array of numbers, or fails. *)
Fixpoint as_float_array (xs : list pyval) : result (list pyfloat) :=
  match xs with
  | [] => Ok []
  | v :: rest =>
      match as_number v with
      | Some x => r ← as_float_array rest; Ok (x :: r)
      | None => Raise ValueError
      end
  end.

(** [interp1d(x, y, kind='cubic', bounds_error=False,
    fill_value='extrapolate')]: SciPy refuses a cubic spline through fewer
    than four samples with a [ValueError]; otherwise the result is the
    fitted spline, which is evaluated anywhere (it extrapolates). *)
Definition interp1d (rt : runtime) (x : list pyval) (y : list pyfloat)
  : result (pyfloat -> pyfloat) :=
  xs ← as_float_array x;
  if (length xs <? 4)%nat then Raise ValueError
  else make_interp_spline rt xs y.

(** The [for] loop that fills [time_series]: entry [i] pairs a label, the
    rounded probability and [target_times[i]]. *)
Fixpoint build_entries (i : nat) (pairs : list (string * pyfloat))
    (target_times : list Z) : result (list series_point) :=
  match pairs with
  | [] => Ok []
  | (time_label, probability) :: rest =>
      match target_times !! i with
      | Some t =>
          r ← build_entries (S i) rest target_times;
          Ok ({| sp_time := time_label;
                 sp_probability := round3 probability;
                 sp_timestamp := t |} :: r)
      | None => Raise IndexError
      end
  end.

(** The body of the [try] of [generate_time_series_data]. *)
Definition build_time_series (rt : runtime) (processed_data : list point)
  : result report :=
  let timestamps := map pt_timestamp processed_data in
  let probabilities := map pt_fault_probability processed_data in
  let target_times := generate_target_timestamps rt in
  interpolated_probabilities ←
    (if (2 <=? length timestamps)%nat then
       interp_func ← interp1d rt timestamps probabilities;
       Ok (map (fun t => clip01 (interp_func (Fin (inject_Z t)))) target_times)
     else
       Ok (repeat (match probabilities with
                   | p :: _ => p
                   | [] => Fin (1 # 2)
                   end)
                  (length target_times)));
  time_series ←
    build_entries 0 (zip time_labels interpolated_probabilities) target_times;
  let latest_data :=
    match last processed_data with
    | Some p =>
        {| ld_temperature := pt_temperature p;
           ld_faultProbability := pt_fault_probability p;
           ld_timestamp := pt_time p |}
    | None =>
        {| ld_temperature := Fin 25;
           ld_faultProbability := Fin 0;
           ld_timestamp := PyStr (now_iso rt) |}
    end in
  Ok {| timeSeries := time_series;
        latestData := latest_data;
        availableWaterJets := ["WaterJet_01"; "WaterJet_02"; "WaterJet_03"];
        availableDates := get_recent_dates rt |}.

(** [DataProcessor.generate_time_series_data]: [except Exception] turns any
    failure of the body into the empty report. *)
Definition generate_time_series_data (rt : runtime) (processed_data : list point)
  : report :=
  match processed_data with
  | [] => get_empty_time_series rt
  | _ =>
      match build_time_series rt processed_data with
      | Ok result => result
      | Raise _ => get_empty_time_series rt
      end
  end.

(** [DataProcessor.process_and_export_json], up to the encoding of the
    report as JSON text: every value of the model has a JSON encoding
    ([json.dumps] writes [nan] as [NaN]), so the encoding cannot fail. *)
Definition process_and_export_json (rt : runtime)
    (raw_data : list (gmap string pyval)) : result report :=
  processed_data ← process_raw_data rt raw_data;
  Ok (generate_time_series_data rt processed_data).

(** ** A runtime to run the processor on

    A clock stopped on 21 December 2023 at 09:50 (UTC), a parser that knows
    a handful of literals, and, standing in for the spline, the straight
    line through the first and the last sample. *)

Definition sample_float_of_str (s : string) : option pyfloat :=
  if String.eqb s "26.5" then Some (Fin (53 # 2))
  else if String.eqb s "34.8" then Some (Fin (174 # 5))
  else if String.eqb s "nan" then Some NaN
  else if String.eqb s "inf" then Some PInf
  else None.

Definition sample_spline (xs ys : list pyfloat) : result (pyfloat -> pyfloat) :=
  match xs, ys, last xs, last ys with
  | Fin x0 :: _, Fin y0 :: _, Some (Fin x1), Some (Fin y1) =>
      if Qeq_bool x0 x1 then Raise ValueError
      else
        Ok (fun x =>
              match x with
              | Fin q => Fin (y0 + (q - x0) * ((y1 - y0) / (x1 - x0)))%Q
              | _ => NaN
              end)
  | _, _, _, _ => Raise ValueError
  end.

Definition sample_dates : list string :=
  ["2023-12-21"; "2023-12-20"; "2023-12-19"; "2023-12-18";
   "2023-12-17"; "2023-12-16"; "2023-12-15"].

Definition sample_runtime : runtime :=
  {| float_of_str := sample_float_of_str;
     make_interp_spline := sample_spline;
     now_epoch := 1703152200;
     now_iso := "2023-12-21T09:50:00";
     hour_epoch := fun h => 1703116800 + 3600 * h;
     date_str := fun i => nth i sample_dates "" |}.

(** ** Vocabulary of the statements *)

(** The number a point is sorted by ([nan] when its timestamp is not a
    number). *)
Definition key (p : point) : pyfloat :=
  default NaN (as_number (pt_timestamp p)).

(** The timestamp is a number other than [nan]: an [int] (the epoch seconds
    the fetcher writes), a [bool] or an ordered [float]. *)
Definition number_key (p : point) : Prop :=
  exists x, as_number (pt_timestamp p) = Some x /\ is_nan x = false.

Definition key_le (p q : point) : Prop := fle (key p) (key q) = true.

(** The two timestamps compare equal. *)
Definition same_key (p q : point) : bool :=
  fle (key p) (key q) && fle (key q) (key p).

(** The invariant of a sanitized point. *)
Definition sanitized (p : point) : Prop :=
  pt_fault_probability p = temperature_to_percentage (pt_temperature p).


(** A value [round(_, 3)] leaves alone. *)
Definition rounded3 (x : pyfloat) : Prop := round3 x = x.




(** ** Sample records *)

Definition reading_0300 : gmap string pyval :=
  {[ "temperature" := PyFloat (Fin 30); "timestamp" := PyInt 300;
     "time" := PyStr "2023-12-21T00:05:00Z" ]}.

Definition reading_0100 : gmap string pyval :=
  {[ "value" := PyFloat (Fin (53 # 2)); "field" := PyStr "temperature";
     "timestamp" := PyInt 100; "time" := PyStr "2023-12-21T00:01:40Z" ]}.

Definition reading_undated : gmap string pyval :=
  {[ "temperature" := PyInt 41 ]}.

Definition reading_0100_again : gmap string pyval :=
  {[ "value" := PyStr "34.8"; "timestamp" := PyInt 100 ]}.

Definition reading_garbled : gmap string pyval :=
  {[ "value" := PyStr "not-a-number"; "timestamp" := PyInt 200 ]}.

Definition sample_raw : list (gmap string pyval) :=
  [reading_0300; reading_0100; reading_garbled; reading_undated; reading_0100_again].


(** The probabilities of a report, in series order. *)
Definition probabilities (r : report) : list pyfloat :=
  map sp_probability (timeSeries r).

(** The two points the specification names for extrapolation: [(t=0, p=0.0)] and
    [(t=1000, p=1.0)], as the sanitizer builds them from a cold and a hot
    reading. *)
Definition cold_reading : gmap string pyval :=
  {[ "temperature" := PyFloat (Fin 20); "timestamp" := PyInt 0 ]}.

Definition hot_reading : gmap string pyval :=
  {[ "temperature" := PyFloat (Fin 60); "timestamp" := PyInt 1000 ]}.

Definition cold_point : point :=
  {| pt_timestamp := PyInt 0; pt_time := PyStr "";
     pt_temperature := Fin 20; pt_fault_probability := Fin 0;
     pt_original_data := cold_reading |}.

Definition hot_point : point :=
  {| pt_timestamp := PyInt 1000; pt_time := PyStr "";
     pt_temperature := Fin 60; pt_fault_probability := Fin 1;
     pt_original_data := hot_reading |}.

(** A reading without timestamp next to one whose timestamp is the ISO
    text of its time. *)
Definition reading_plain : gmap string pyval :=
  {[ "temperature" := PyFloat (Fin 30) ]}.

Definition reading_iso : gmap string pyval :=
  {[ "temperature" := PyFloat (Fin 31);
     "timestamp" := PyStr "2023-12-21T02:30:00Z" ]}.


(** A sanitized point of probability [0.4]: the reading [34.8]. *)
Definition point_0_4 : point :=
  {| pt_timestamp := PyInt 1703123400; pt_time := PyStr "2023-12-21T01:50:00Z";
     pt_temperature := Fin (174 # 5); pt_fault_probability := Fin (2 # 5);
     pt_original_data :=
       {[ "value" := PyStr "34.8"; "timestamp" := PyInt 1703123400;
          "time" := PyStr "2023-12-21T01:50:00Z" ]} |}.

(** What the sanitizer makes of [sample_raw]. *)
Definition sample_last : point :=
  {| pt_timestamp := PyInt 300; pt_time := PyStr "2023-12-21T00:05:00Z";
     pt_temperature := Fin 30; pt_fault_probability := Fin (51 # 250);
     pt_original_data := reading_0300 |}.

Definition sample_points : list point :=
  [ {| pt_timestamp := PyInt 0; pt_time := PyStr "";
       pt_temperature := Fin 41; pt_fault_probability := Fin (653 # 1000);
       pt_original_data := reading_undated |};
    {| pt_timestamp := PyInt 100; pt_time := PyStr "2023-12-21T00:01:40Z";
       pt_temperature := Fin (53 # 2); pt_fault_probability := Fin (61 # 1000);
       pt_original_data := reading_0100 |};
    {| pt_timestamp := PyInt 100; pt_time := PyStr "";
       pt_temperature := Fin (174 # 5); pt_fault_probability := Fin (2 # 5);
       pt_original_data := reading_0100_again |};
    sample_last ].



(** ** Vocabulary of the further properties *)

(** Two outcomes of [process_point] that differ at most in the record kept
    under [original_data]. *)
Definition same_reading (a b : result (option point)) : Prop :=
  match a, b with
  | Ok (Some p), Ok (Some q) =>
      pt_timestamp p = pt_timestamp q /\
      pt_time p = pt_time q /\
      pt_temperature p = pt_temperature q /\
      pt_fault_probability p = pt_fault_probability q
  | Ok None, Ok None => True
  | Raise e, Raise e' => e = e'
  | _, _ => False
  end.


(** A record whose [temperature] is [None] although its [value] is a
    number. *)
Definition reading_null_temperature : gmap string pyval :=
  {[ "temperature" := PyNone; "timestamp" := PyInt 7 ]}.

(** ** The fetcher ([influx_sql_fetcher.py])

    A row of a query result, as the fetcher reads it: what the accessors
    of the record return (or the exception they raise) and the columns of
    the row in the order of [record.values.items()].  The time of the row
    is given by the two readings the fetcher takes of it: its ISO text and
    its epoch seconds. *)
Record flux_record : Type := {
  (** [record.get_time().isoformat()] and [int(record.get_time().timestamp())] *)
  rec_time : result (string * Z);
  (** [record.get_field()] *)
  rec_field : result pyval;
  (** [record.get_value()] *)
  rec_value : result pyval;
  (** [record.get_measurement()] *)
  rec_measurement : result pyval;
  (** [record.values.items()] *)
  rec_values : list (string * pyval)
}.

(** The database behind the client: what [query_api.query] returns, a list
    of tables of records, or the exception it raises, for the polling
    query, for the backup query and for the historical query of a date
    range and an optional device. *)
Record database : Type := {
  query_main : result (list (list flux_record));
  query_backup : result (list (list flux_record));
  query_history : string -> string -> option string -> result (list (list flux_record))
}.

(** The dict literal the three fetching functions start a data point with. *)
Definition data_point_literal (r : flux_record) : result (gmap string pyval) :=
  t ← rec_time r;
  f ← rec_field r;
  v ← rec_value r;
  m ← rec_measurement r;
  Ok (<["timestamp" := PyInt t.2]>
      (<["_measurement" := m]>
       (<["_value" := v]>
        (<["_field" := f]>
         (<["time" := PyStr t.1]> ∅))))).

(** The condition under which [fetch_data_with_sql] copies a column. *)
Definition keep_current (key : string) : bool :=
  negb (existsb (String.eqb key) ["_time"; "_field"; "_value"; "_measurement"])
  && negb (String.prefix "_start" key)
  && negb (String.prefix "_stop" key).

(** The condition under which [fetch_historical_data_sql] copies a column. *)
Definition keep_history (key : string) : bool :=
  negb (String.prefix "_table" key)
  && negb (String.prefix "_start" key)
  && negb (String.prefix "_stop" key).

(** [for key, value in record.values.items(): if keep(key):
    data_point[key] = value]. *)
Definition copy_columns (keep : string -> bool) (values : list (string * pyval))
    (data_point : gmap string pyval) : gmap string pyval :=
  foldl (fun acc kv => if keep kv.1 then <[kv.1 := kv.2]> acc else acc)
        data_point values.

(** The data point [fetch_data_with_sql] builds from a record. *)
Definition data_point_current (r : flux_record) : result (gmap string pyval) :=
  data_point ← data_point_literal r;
  Ok (copy_columns keep_current (rec_values r) data_point).

(** The data point [try_backup_query] builds from a record. *)
Definition data_point_backup (r : flux_record) : result (gmap string pyval) :=
  data_point_literal r.

(** The data point [fetch_historical_data_sql] builds from a record. *)
Definition data_point_history (r : flux_record) : result (gmap string pyval) :=
  data_point ← data_point_literal r;
  Ok (copy_columns keep_history (rec_values r) data_point).

(** [for record in ...: data_list.append(build(record))]. *)
Fixpoint build_all (build : flux_record -> result (gmap string pyval))
    (records : list flux_record) : result (list (gmap string pyval)) :=
  match records with
  | [] => Ok []
  | r :: rest =>
      data_point ← build r;
      data_list ← build_all build rest;
      Ok (data_point :: data_list)
  end.

(** The two nested loops over the tables of a result and their records. *)
Definition build_tables (build : flux_record -> result (gmap string pyval))
    (tables : list (list flux_record)) : result (list (gmap string pyval)) :=
  build_all build (concat tables).

(** [try_backup_query]: the new content of [stored_data]. *)
Definition try_backup_query (db : database) (stored_data : list (gmap string pyval))
  : list (gmap string pyval) :=
  match tables ← query_backup db; build_tables data_point_backup tables with
  | Ok data_list => data_list
  | Raise _ => stored_data
  end.

(** [fetch_data_with_sql]: the new content of [stored_data]. *)
Definition fetch_data_with_sql (db : database) (stored_data : list (gmap string pyval))
  : list (gmap string pyval) :=
  match tables ← query_main db; build_tables data_point_current tables with
  | Ok data_list => data_list
  | Raise _ => try_backup_query db stored_data
  end.

(** A Python string used as a condition: [None] and [''] are false. *)
Definition truthy (s : option string) : bool :=
  match s with
  | Some s => negb (String.eqb s "")
  | None => false
  end.

(** [fetch_historical_data_sql]. *)
Definition fetch_historical_data_sql (rt : runtime) (db : database)
    (start_date : string) (end_date waterjet_id : option string)
  : list (gmap string pyval) :=
  let end_date := match end_date with None => date_str rt 0 | Some e => e end in
  let waterjet := if truthy waterjet_id then waterjet_id else None in
  match tables ← query_history db start_date end_date waterjet;
        build_tables data_point_history tables with
  | Ok data_list => data_list
  | Raise _ => []
  end.

(** The polls of [start_fetching], one database state after the other:
    the content of [stored_data] after the last of them. *)
Definition polls (dbs : list database) (stored_data : list (gmap string pyval))
  : list (gmap string pyval) :=
  foldl (fun stored db => fetch_data_with_sql db stored) stored_data dbs.

(** ** The dashboard endpoints ([main.py]) *)

(** The JSON body of a response. *)
Inductive body : Type :=
  | Success (data : report) (timestamp : string)
  | SuccessHistory (data : report) (start_date : string) (end_date waterjet_id : option string)
  | Failure (error : exn)
  | MissingStartDate.

(** [get_current_dashboard]: the status and the body of the response, for
    the content of [stored_data] that [get_data] returns. *)
Definition get_current_dashboard (rt : runtime) (stored_data : list (gmap string pyval))
  : Z * body :=
  match process_and_export_json rt stored_data with
  | Ok dashboard_data => (200, Success dashboard_data (now_iso rt))
  | Raise e => (500, Failure e)
  end.

(** [get_historical_dashboard], for the query parameters of the request. *)
Definition get_historical_dashboard (rt : runtime) (db : database)
    (args : gmap string string) : Z * body :=
  let start_date := args !! "start_date" in
  let end_date := args !! "end_date" in
  let waterjet_id := args !! "waterjet_id" in
  match start_date with
  | Some start =>
      if truthy start_date then
        let historical_data := fetch_historical_data_sql rt db start end_date waterjet_id in
        match process_and_export_json rt historical_data with
        | Ok dashboard_data =>
            (200, SuccessHistory dashboard_data start end_date waterjet_id)
        | Raise e => (500, Failure e)
        end
      else (400, MissingStartDate)
  | None => (400, MissingStartDate)
  end.

(** The value a row holds under a column name. *)
Fixpoint column (values : list (string * pyval)) (key : string) : option pyval :=
  match values with
  | [] => None
  | (k, v) :: rest =>
      match column rest key with
      | Some w => Some w
      | None => if String.eqb k key then Some v else None
      end
  end.

(** The row has no column named [temperature] or [value]. *)
Definition no_reading_column (r : flux_record) : bool :=
  match column (rec_values r) "temperature", column (rec_values r) "value" with
  | None, None => true
  | _, _ => false
  end.

(** A row of the polling query: a temperature field of the measurement
    [waterjet], with the columns Flux adds. *)
Definition sample_record : flux_record :=
  {| rec_time := Ok ("2023-12-21T02:30:00+00:00", 1703125800);
     rec_field := Ok (PyStr "temperature");
     rec_value := Ok (PyFloat (Fin (53 # 2)));
     rec_measurement := Ok (PyStr "waterjet");
     rec_values :=
       [("result", PyStr "_result"); ("table", PyInt 0);
        ("_field", PyStr "temperature"); ("_value", PyFloat (Fin (53 # 2)));
        ("_measurement", PyStr "waterjet"); ("waterjet_id", PyStr "WaterJet_01")] |}.

Definition sample_database : database :=
  {| query_main := Ok [[sample_record; sample_record]];
     query_backup := Raise ValueError;
     query_history := fun _ _ _ => Raise ValueError |}.

(** The rows of the polling query, when it returns, have no column named
    [temperature] or [value]. *)
Definition plain_rows (db : database) : bool :=
  match query_main db with
  | Ok tables => forallb no_reading_column (concat tables)
  | Raise _ => true
  end.

(** Every accessor of the record returns. *)
Definition readable (r : flux_record) : bool :=
  match rec_time r, rec_field r, rec_value r, rec_measurement r with
  | Ok _, Ok _, Ok _, Ok _ => true
  | _, _, _, _ => false
  end.

(** A database whose queries return no table, and a request for the
    history of a device. *)
Definition empty_database : database :=
  {| query_main := Ok [];
     query_backup := Ok [];
     query_history := fun _ _ _ => Ok [] |}.

Definition sample_args : gmap string string :=
  {[ "start_date" := "2023-12-01"; "waterjet_id" := "WaterJet_01" ]}.

(** A database that has rows for every date range. *)
Definition history_database : database :=
  {| query_main := Ok [[sample_record]];
     query_backup := Ok [[sample_record]];
     query_history := fun _ _ _ => Ok [[sample_record]; [sample_record]] |}.

(** * Properties *)

(** ** Rounding *)

Section Rounding.
Local Open Scope Q_scope.

Lemma round_half_even_floor (x : Q) :
  (Qfloor x <= round_half_even x <= Qfloor x + 1)%Z.
Proof.
  unfold round_half_even.
  destruct (Qcompare _ _); try lia.
  destruct (Z.even _); lia.
Qed.

Lemma round_half_even_mono (x y : Q) :
  x <= y -> (round_half_even x <= round_half_even y)%Z.
Proof.
  intros Hxy.
  pose proof (Qfloor_resp_le _ _ Hxy) as Hf.
  destruct (Z.eq_dec (Qfloor x) (Qfloor y)) as [Heq | Hne].
  - unfold round_half_even. rewrite Heq.
    destruct (Qcompare_spec (x - inject_Z (Qfloor y)) (1 # 2)) as [H1 | H1 | H1];
      destruct (Qcompare_spec (y - inject_Z (Qfloor y)) (1 # 2)) as [H2 | H2 | H2];
      try destruct (Z.even (Qfloor y)); try lia; exfalso; lra.
  - pose proof (round_half_even_floor x). pose proof (round_half_even_floor y). lia.
Qed.

Lemma round_half_even_Z (n : Z) : round_half_even (inject_Z n) = n.
Proof.
  unfold round_half_even. rewrite Qfloor_Z.
  destruct (Qcompare_spec (inject_Z n - inject_Z n) (1 # 2)) as [H | H | H];
    try reflexivity; exfalso; lra.
Qed.

Lemma round_half_even_resp (x y : Q) :
  x == y -> round_half_even x = round_half_even y.
Proof.
  intros H. apply Z.le_antisymm; apply round_half_even_mono; lra.
Qed.

Lemma Qred_thousandths_le (a b : Z) :
  (a <= b)%Z -> Qle_bool (Qred (a # 1000)) (Qred (b # 1000)) = true.
Proof.
  intros H. apply Qle_bool_iff. rewrite !Qred_correct.
  unfold Qle; simpl. lia.
Qed.

Lemma round3_thousandths (k : Z) :
  round3 (Fin (Qred (k # 1000))) = Fin (Qred (k # 1000)).
Proof.
  unfold round3. do 2 f_equal. f_equal.
  rewrite <- (round_half_even_Z k) at 2.
  apply round_half_even_resp.
  rewrite Qred_correct. unfold Qeq, Qmult, inject_Z; simpl. lia.
Qed.


End Rounding.

(** ** The normalizer *)

Section Normalizer.
Local Open Scope Q_scope.

Lemma Qle_bool_false (a b : Q) : Qle_bool a b = false <-> b < a.
Proof.
  split; intros H.
  - apply Qnot_le_lt. intros Hle. apply Qle_bool_iff in Hle. congruence.
  - destruct (Qle_bool a b) eqn:E; [| reflexivity].
    apply Qle_bool_iff in E. exfalso; lra.
Qed.

Lemma linear_part_eq (t : Q) : linear_part t == (t - 25) * (2 # 49).
Proof. reflexivity. Qed.

Lemma linear_part_mono (t1 t2 : Q) : t1 <= t2 -> linear_part t1 <= linear_part t2.
Proof. rewrite !linear_part_eq. intros H. lra. Qed.

Lemma temperature_to_percentage_middle (t : Q) :
  25 < t -> t < 99 # 2 ->
  temperature_to_percentage (Fin t) = round3 (Fin (linear_part t)).
Proof.
  intros H1 H2. unfold temperature_to_percentage, fge, min_temp, max_temp, fle.
  apply Qle_bool_false in H1, H2. rewrite H1, H2. reflexivity.
Qed.

Lemma temperature_to_percentage_low (t : Q) :
  t <= 25 -> temperature_to_percentage (Fin t) = Fin 0.
Proof.
  intros H. unfold temperature_to_percentage, min_temp, fle.
  apply Qle_bool_iff in H. rewrite H. reflexivity.
Qed.

Lemma temperature_to_percentage_high (t : Q) :
  99 # 2 <= t -> temperature_to_percentage (Fin t) = Fin 1.
Proof.
  intros H. unfold temperature_to_percentage, fge, min_temp, max_temp, fle.
  destruct (Qle_bool t 25) eqn:E.
  - apply Qle_bool_iff in E. exfalso; lra.
  - apply Qle_bool_iff in H. rewrite H. reflexivity.
Qed.

Lemma round3_linear_part (t : Q) :
  round3 (Fin (linear_part t)) = Fin (Qred (thousandths t # 1000)).
Proof. reflexivity. Qed.

Lemma thousandths_mono (t1 t2 : Q) :
  t1 <= t2 -> (thousandths t1 <= thousandths t2)%Z.
Proof.
  intros H. apply round_half_even_mono.
  pose proof (linear_part_mono _ _ H). lra.
Qed.

Lemma thousandths_range (t : Q) :
  25 <= t -> t <= 99 # 2 -> (0 <= thousandths t <= 1000)%Z.
Proof.
  intros H1 H2. unfold thousandths.
  pose proof (round_half_even_mono (inject_Z 0) (linear_part t * 1000)) as Hlo.
  pose proof (round_half_even_mono (linear_part t * 1000) (inject_Z 1000)) as Hhi.
  rewrite round_half_even_Z in Hlo, Hhi.
  split; [apply Hlo | apply Hhi]; rewrite linear_part_eq.
  - change (inject_Z 0) with 0. lra.
  - change (inject_Z 1000) with 1000. lra.
Qed.

(** Every finite temperature lands on a whole number of thousandths
    between 0 and 1000. *)
Lemma temperature_to_percentage_thousandths (t : Q) :
  exists k : Z,
    (0 <= k <= 1000)%Z /\
    temperature_to_percentage (Fin t) = Fin (Qred (k # 1000)) /\
    (t <= 25 -> k = 0%Z) /\
    (99 # 2 <= t -> k = 1000%Z) /\
    (25 < t -> t < 99 # 2 -> k = thousandths t).
Proof.
  destruct (Qlt_le_dec 25 t) as [Hlo | Hlo].
  - destruct (Qlt_le_dec t (99 # 2)) as [Hhi | Hhi].
    + exists (thousandths t). split; [apply thousandths_range; lra |].
      split; [rewrite temperature_to_percentage_middle by assumption;
              apply round3_linear_part |].
      repeat split; intros; try reflexivity; exfalso; lra.
    + exists 1000%Z. split; [lia |].
      split; [apply temperature_to_percentage_high; assumption |].
      repeat split; intros; try reflexivity; exfalso; lra.
  - exists 0%Z. split; [lia |].
    split; [apply temperature_to_percentage_low; assumption |].
    repeat split; intros; try reflexivity; exfalso; lra.
Qed.

(** C3. For every finite temperature [t]: the result is [0.0] when
    [t <= 25.0], [1.0] when [t >= 49.5], and
    [round((t - 25.0) / 24.5, 3)] when [25.0 < t < 49.5]; the function is
    total (no error is possible: it returns a float, and a finite one). *)
Theorem temperature_to_percentage_piecewise (t : Q) :
  (t <= 25 -> temperature_to_percentage (Fin t) = Fin 0) /\
  (99 # 2 <= t -> temperature_to_percentage (Fin t) = Fin 1) /\
  (25 < t /\ t < 99 # 2 ->
     temperature_to_percentage (Fin t) = round3 (Fin ((t - 25) / (49 # 2)))) /\
  (exists q : Q, temperature_to_percentage (Fin t) = Fin q).
Proof.
  split; [apply temperature_to_percentage_low |].
  split; [apply temperature_to_percentage_high |].
  split; [intros [H1 H2]; apply temperature_to_percentage_middle; assumption |].
  destruct (temperature_to_percentage_thousandths t) as (k & _ & E & _).
  rewrite E. eauto.
Qed.

Lemma temperature_to_percentage_piecewise_witness :
  temperature_to_percentage (Fin 20) = Fin 0 /\
  temperature_to_percentage (Fin 60) = Fin 1 /\
  temperature_to_percentage (Fin (53 # 2)) = Fin (61 # 1000).
Proof.
  split; [| split].
  - apply (proj1 (temperature_to_percentage_piecewise 20)). vm_compute; discriminate.
  - apply (proj1 (proj2 (temperature_to_percentage_piecewise 60))).
    vm_compute; discriminate.
  - apply (proj1 (proj2 (proj2 (temperature_to_percentage_piecewise (53 # 2))))).
    split; reflexivity.
Defined.

(** C8. The normalizer is monotonically non-decreasing on finite
    temperatures, across the saturated regions and the rounded linear
    range alike. *)
Theorem temperature_to_percentage_monotone (t1 t2 : Q) :
  t1 <= t2 ->
  fle (temperature_to_percentage (Fin t1)) (temperature_to_percentage (Fin t2))
  = true.
Proof.
  intros H.
  destruct (temperature_to_percentage_thousandths t1) as (k1 & R1 & E1 & L1 & H1 & M1).
  destruct (temperature_to_percentage_thousandths t2) as (k2 & R2 & E2 & L2 & H2 & M2).
  rewrite E1, E2. simpl. apply Qred_thousandths_le.
  destruct (Qlt_le_dec 25 t1) as [Hlo | Hlo]; [| rewrite (L1 Hlo); lia].
  destruct (Qlt_le_dec t2 (99 # 2)) as [Hhi | Hhi]; [| rewrite (H2 Hhi); lia].
  rewrite M1, M2 by lra. apply thousandths_mono, H.
Qed.

Lemma temperature_to_percentage_monotone_witness :
  fle (temperature_to_percentage (Fin 30)) (temperature_to_percentage (Fin (61 # 2)))
  = true.
Proof.
  apply (temperature_to_percentage_monotone 30 (61 # 2)). vm_compute; discriminate.
Defined.

End Normalizer.

(** ** The order of floats *)

Section FloatOrder.

Lemma fle_trans (x y z : pyfloat) :
  fle x y = true -> fle y z = true -> fle x z = true.
Proof.
  destruct x as [a | | |], y as [b | | |], z as [c | | |]; simpl;
    try reflexivity; try discriminate.
  rewrite !Qle_bool_iff. apply Qle_trans.
Qed.

Lemma fle_total (x y : pyfloat) :
  is_nan x = false -> is_nan y = false -> fle x y = true \/ fle y x = true.
Proof.
  destruct x as [a | | |], y as [b | | |]; simpl; try discriminate; auto.
  intros _ _. rewrite !Qle_bool_iff.
  destruct (Qlt_le_dec a b) as [H | H]; [left; apply Qlt_le_weak, H | right; exact H].
Qed.

Lemma flt_negb_fle (x y : pyfloat) :
  is_nan x = false -> is_nan y = false -> flt x y = negb (fle y x).
Proof.
  destruct x as [a | | |], y as [b | | |]; simpl; try discriminate; reflexivity.
Qed.

End FloatOrder.

(** ** The sanitizer *)

Section Sanitizer.
Variable rt : runtime.

Lemma number_key_nan (p : point) : number_key p -> is_nan (key p) = false.
Proof. intros (x & Hx & Hn). unfold key. rewrite Hx. exact Hn. Qed.

Lemma py_lt_number (p q : point) :
  number_key p -> number_key q ->
  py_lt (pt_timestamp q) (pt_timestamp p) = Ok (negb (fle (key p) (key q))).
Proof.
  intros (x & Hx & Hnx) (y & Hy & Hny). unfold py_lt, key.
  rewrite Hx, Hy. simpl. f_equal. apply flt_negb_fle; assumption.
Qed.

(** Where [insert_point] puts a point: behind the elements that are
    strictly smaller, in front of the first one that is not. *)
Lemma insert_point_split (p : point) (l : list point) :
  number_key p -> Forall number_key l ->
  exists l1 l2,
    l = l1 ++ l2 /\
    insert_point p l = Ok (l1 ++ p :: l2) /\
    Forall (fun y => fle (key p) (key y) = false) l1 /\
    match l2 with [] => True | y :: _ => key_le p y end.
Proof.
  intros Hp Hl. induction Hl as [| y l Hy Hl IH].
  - exists [], []. repeat split; constructor.
  - simpl. rewrite (py_lt_number p y Hp Hy).
    destruct (fle (key p) (key y)) eqn:E; simpl.
    + exists [], (y :: l). repeat split; [constructor | exact E].
    + destruct IH as (l1 & l2 & -> & Hins & Hsm & Hhd).
      exists (y :: l1), l2. rewrite Hins. repeat split; [| exact Hhd].
      constructor; assumption.
Qed.

Lemma insert_point_sorted (p : point) (l l1 l2 : list point) :
  number_key p -> Forall number_key l ->
  StronglySorted key_le l ->
  l = l1 ++ l2 ->
  Forall (fun y => fle (key p) (key y) = false) l1 ->
  match l2 with [] => True | y :: _ => key_le p y end ->
  StronglySorted key_le (l1 ++ p :: l2).
Proof.
  intros Hp Hl Hs -> Hsm Hhd. revert Hl Hs Hsm.
  induction l1 as [| y l1 IH]; simpl; intros Hl Hs Hsm.
  - constructor; [exact Hs |].
    destruct l2 as [| z l2]; [constructor |].
    apply StronglySorted_inv in Hs as [_ Hz].
    constructor; [exact Hhd |].
    eapply Forall_impl; [exact Hz |]. intros a Ha.
    unfold key_le in *. eapply fle_trans; eassumption.
  - apply StronglySorted_inv in Hs as [Hs Hy].
    apply Forall_cons_iff in Hl as [Hny Hl].
    apply Forall_cons_iff in Hsm as [Hyp Hsm].
    constructor; [apply IH; assumption |].
    apply Forall_app in Hy as [Hy1 Hy2].
    apply Forall_app. split; [exact Hy1 |].
    constructor; [| exact Hy2].
    destruct (fle_total (key y) (key p)) as [H | H];
      [apply number_key_nan, Hny | apply number_key_nan, Hp | exact H | congruence].
Qed.

Lemma insert_point_stable (p p0 : point) (l1 l2 : list point) :
  number_key p ->
  Forall (fun y => fle (key p) (key y) = false) l1 ->
  List.filter (same_key p0) (l1 ++ p :: l2)
  = List.filter (same_key p0) (p :: l1 ++ l2).
Proof.
  intros Hp Hsm. simpl. rewrite !List.filter_app. simpl.
  destruct (same_key p0 p) eqn:E; [| reflexivity].
  assert (List.filter (same_key p0) l1 = []) as ->; [| reflexivity].
  induction Hsm as [| y l1 Hy _ IH]; [reflexivity |].
  simpl. rewrite IH.
  destruct (same_key p0 y) eqn:E'; [| reflexivity].
  unfold same_key in E, E'.
  apply andb_prop in E as [_ E2]. apply andb_prop in E' as [E1' _].
  rewrite (fle_trans _ _ _ E2 E1') in Hy. discriminate.
Qed.

(** The sort succeeds on numeric keys; its output is sorted, a
    permutation of its input, and stable. *)
Lemma sort_by_timestamp_spec (l : list point) :
  Forall number_key l ->
  exists out,
    sort_by_timestamp l = Ok out /\
    Permutation l out /\
    StronglySorted key_le out /\
    forall p0, List.filter (same_key p0) out = List.filter (same_key p0) l.
Proof.
  induction 1 as [| p l Hp Hl IH].
  - exists []. repeat split; constructor.
  - destruct IH as (s & Hs & Hperm & Hsorted & Hstable).
    assert (Forall number_key s) as Hns by (rewrite <- Hperm; exact Hl).
    destruct (insert_point_split p s Hp Hns) as (l1 & l2 & Heq & Hins & Hsm & Hhd).
    exists (l1 ++ p :: l2). simpl. rewrite Hs. simpl. split; [exact Hins |].
    split; [| split].
    + rewrite <- Permutation_middle. constructor. rewrite <- Heq. exact Hperm.
    + eapply insert_point_sorted; eassumption.
    + intros p0. rewrite insert_point_stable by assumption.
      rewrite <- Heq. simpl. rewrite Hstable. reflexivity.
Qed.

(** What [process_point] appends. *)
Lemma process_point_Some (d : gmap string pyval) (p : point) :
  process_point rt d = Ok (Some p) ->
  pt_original_data p = d /\
  pt_timestamp p = get d "timestamp" (PyInt 0) /\
  pt_time p = get d "time" (PyStr "") /\
  sanitized p.
Proof.
  unfold process_point, mbind, result_bind.
  intros H. repeat case_match; simplify_eq; repeat split.
Qed.

Lemma collect_points_Forall (raw : list (gmap string pyval)) (pts : list point) :
  collect_points rt raw = Ok pts ->
  Forall (fun p =>
            pt_timestamp p = get (pt_original_data p) "timestamp" (PyInt 0) /\
            pt_time p = get (pt_original_data p) "time" (PyStr "") /\
            sanitized p) pts.
Proof.
  revert pts. induction raw as [| d raw IH]; simpl; intros pts H.
  - injection H as <-. constructor.
  - destruct (process_point rt d) as [[p |] | e] eqn:E.
    + destruct (collect_points rt raw) as [ps | e]; [| discriminate].
      injection H as <-. constructor; [| apply IH; reflexivity].
      apply process_point_Some in E as (Ho & Ht & Htime & Hs).
      rewrite Ho. auto.
    + apply IH, H.
    + destruct (caught e); [apply IH, H | discriminate].
Qed.

(** The loop keeps the records in their input order. *)
Lemma collect_points_sublist (raw : list (gmap string pyval)) (pts : list point) :
  collect_points rt raw = Ok pts ->
  sublist (map pt_original_data pts) raw.
Proof.
  revert pts. induction raw as [| d raw IH]; simpl; intros pts H.
  - injection H as <-. constructor.
  - destruct (process_point rt d) as [[p |] | e] eqn:E.
    + destruct (collect_points rt raw) as [ps | e]; [| discriminate].
      injection H as <-. simpl.
      apply process_point_Some in E as (-> & _).
      apply sublist_skip, IH. reflexivity.
    + apply sublist_cons, IH, H.
    + destruct (caught e); [apply sublist_cons, IH, H | discriminate].
Qed.






End Sanitizer.

Section SanitizerOrder.
Variable rt : runtime.


End SanitizerOrder.


(** ** The series *)

Section Series.
Variable rt : runtime.

Lemma map_fst_zip {A B : Type} (l : list A) (k : list B) :
  (length l <= length k)%nat -> map fst (zip l k) = l.
Proof.
  revert k. induction l as [| a l IH]; intros [| b k] Hlen; simpl in *;
    try reflexivity; try lia.
  f_equal. apply IH. lia.
Qed.

Lemma map_snd_zip {A B C : Type} (f : B -> C) (l : list A) (k : list B) :
  (length k <= length l)%nat -> map (fun x => f (snd x)) (zip l k) = map f k.
Proof.
  revert k. induction l as [| a l IH]; intros [| b k] Hlen; simpl in *;
    try reflexivity; try lia.
  f_equal. apply IH. lia.
Qed.

Lemma build_entries_spec (pairs : list (string * pyfloat)) (targets : list Z) (i : nat) :
  (i + length pairs <= length targets)%nat ->
  exists es,
    build_entries i pairs targets = Ok es /\
    map sp_time es = map fst pairs /\
    map sp_probability es = map (fun x => round3 (snd x)) pairs /\
    map sp_timestamp es = take (length pairs) (drop i targets).
Proof.
  revert i. induction pairs as [| [time_label probability] pairs IH]; intros i Hlen.
  - exists []. repeat split; reflexivity.
  - simpl in Hlen. simpl build_entries.
    destruct (targets !! i) as [t |] eqn:Ht.
    + destruct (IH (S i)) as (es & -> & Htime & Hprob & Hts); [lia |].
      eexists. split; [reflexivity |]. simpl.
      rewrite Htime, Hprob, Hts. repeat split.
      rewrite (drop_S _ _ _ Ht). reflexivity.
    + apply lookup_ge_None in Ht. lia.
Qed.

(** The interpolated probabilities of the [try] body, whichever branch
    computes them. *)
Lemma build_time_series_inv (pd : list point) (r : report) :
  build_time_series rt pd = Ok r ->
  exists probs : list pyfloat,
    length probs = 11%nat /\
    map sp_time (timeSeries r) = time_labels /\
    probabilities r = map round3 probs /\
    map sp_timestamp (timeSeries r) = generate_target_timestamps rt /\
    availableWaterJets r = ["WaterJet_01"; "WaterJet_02"; "WaterJet_03"] /\
    availableDates r = get_recent_dates rt /\
    (forall p, last pd = Some p ->
       latestData r = {| ld_temperature := pt_temperature p;
                         ld_faultProbability := pt_fault_probability p;
                         ld_timestamp := pt_time p |}) /\
    ((2 <= length pd)%nat ->
       exists interp_func,
         interp1d rt (map pt_timestamp pd) (map pt_fault_probability pd) = Ok interp_func /\
         probs = map (fun t => clip01 (interp_func (Fin (inject_Z t))))
                     (generate_target_timestamps rt)) /\
    (forall p, pd = [p] -> probs = repeat (pt_fault_probability p) 11).
Proof.
  unfold build_time_series. cbv zeta. rewrite !length_map.
  set (interpolated := if (2 <=? length pd)%nat then _ else _).
  intros H.
  destruct interpolated as [probs | e] eqn:Hinterp; [| discriminate].
  assert (length probs = 11%nat) as Hlen.
  { subst interpolated. destruct (2 <=? length pd)%nat.
    - destruct (interp1d _ _ _); [| discriminate].
      injection Hinterp as <-. reflexivity.
    - injection Hinterp as <-. reflexivity. }
  cbv beta iota delta [mbind result_bind] in H.
  destruct (build_entries_spec (zip time_labels probs) (generate_target_timestamps rt) 0)
    as (es & Hes & Htime & Hprob & Hts).
  { rewrite length_zip_with, Hlen. simpl. lia. }
  rewrite Hes in H. injection H as <-.
  exists probs. simpl. unfold probabilities. simpl.
  split; [exact Hlen |].
  split; [rewrite Htime; apply map_fst_zip; rewrite Hlen; simpl; lia |].
  split; [rewrite Hprob; apply map_snd_zip; rewrite Hlen; simpl; lia |].
  split; [rewrite Hts, length_zip_with, Hlen; reflexivity |].
  split; [reflexivity |]. split; [reflexivity |].
  split; [intros p ->; reflexivity |].
  split.
  - intros Hge. apply Nat.leb_le in Hge. subst interpolated. rewrite Hge in Hinterp.
    destruct (interp1d _ _ _) as [f |]; [| discriminate].
    injection Hinterp as <-. exists f. split; reflexivity.
  - intros p ->. subst interpolated. simpl in Hinterp.
    injection Hinterp as <-. reflexivity.
Qed.

End Series.

(** ** Values of the series *)

Section Values.
Local Open Scope Q_scope.







Lemma temperature_to_percentage_is_nan (t : pyfloat) :
  is_nan (temperature_to_percentage t) = is_nan t.
Proof.
  destruct t as [q | | |]; try reflexivity.
  destruct (temperature_to_percentage_thousandths q) as (k & _ & -> & _). reflexivity.
Qed.

Lemma temperature_to_percentage_rounded3 (t : pyfloat) :
  rounded3 (temperature_to_percentage t).
Proof.
  unfold rounded3. destruct t as [q | | |]; try reflexivity.
  destruct (temperature_to_percentage_thousandths q) as (k & _ & -> & _).
  apply round3_thousandths.
Qed.

End Values.

(** ** The report *)

Section Report.
Variable rt : runtime.

Lemma insert_point_Permutation (p : point) (l r : list point) :
  insert_point p l = Ok r -> Permutation (p :: l) r.
Proof.
  revert r. induction l as [| y l IH]; simpl; intros r H.
  - injection H as <-. reflexivity.
  - destruct (py_lt _ _) as [[|] | e]; try discriminate.
    + destruct (insert_point p l) as [r' |]; [| discriminate].
      injection H as <-. rewrite perm_swap. constructor. apply IH. reflexivity.
    + injection H as <-. reflexivity.
Qed.

Lemma sort_by_timestamp_Permutation (l r : list point) :
  sort_by_timestamp l = Ok r -> Permutation l r.
Proof.
  revert r. induction l as [| p l IH]; simpl; intros r H.
  - injection H as <-. reflexivity.
  - destruct (sort_by_timestamp l) as [s |]; [| discriminate].
    simpl in H. apply insert_point_Permutation in H.
    rewrite <- H. constructor. apply IH. reflexivity.
Qed.

(** Every point the sanitizer returns carries the probability of its
    temperature and the time and timestamp of its record. *)
Lemma process_raw_data_Forall (raw : list (gmap string pyval)) (pd : list point) :
  process_raw_data rt raw = Ok pd ->
  Forall (fun p =>
            pt_timestamp p = get (pt_original_data p) "timestamp" (PyInt 0) /\
            pt_time p = get (pt_original_data p) "time" (PyStr "") /\
            sanitized p) pd.
Proof.
  unfold process_raw_data. intros H.
  destruct (collect_points rt raw) as [pts |] eqn:Hc; [| discriminate].
  simpl in H. rewrite <- (sort_by_timestamp_Permutation _ _ H).
  apply (collect_points_Forall rt raw), Hc.
Qed.

Lemma build_time_series_single (p : point) :
  exists r, build_time_series rt [p] = Ok r.
Proof. eexists. reflexivity. Qed.

Lemma as_float_array_length (x : list pyval) (xs : list pyfloat) :
  as_float_array x = Ok xs -> length xs = length x.
Proof.
  revert xs. induction x as [| v x IH]; simpl; intros xs H.
  - injection H as <-. reflexivity.
  - destruct (as_number v); [| discriminate].
    destruct (as_float_array x) as [r |]; [| discriminate].
    injection H as <-. simpl. f_equal. apply IH. reflexivity.
Qed.

Lemma as_float_array_Raise (x : list pyval) (e : exn) :
  as_float_array x = Raise e -> e = ValueError.
Proof.
  induction x as [| v x IH]; simpl; intros H.
  - discriminate.
  - destruct (as_number v); [| congruence].
    destruct (as_float_array x) as [r | e']; [discriminate |].
    simpl in H. apply IH. congruence.
Qed.

(** SciPy fits no cubic spline through fewer than four samples. *)
Lemma interp1d_too_few (x : list pyval) (y : list pyfloat) :
  (length x < 4)%nat -> interp1d rt x y = Raise ValueError.
Proof.
  intros Hlen. unfold interp1d.
  destruct (as_float_array x) as [xs | e] eqn:E.
  - simpl. rewrite (as_float_array_length _ _ E).
    apply Nat.ltb_lt in Hlen. rewrite Hlen. reflexivity.
  - simpl. rewrite (as_float_array_Raise _ _ E). reflexivity.
Qed.

(** X11. Two or three points, whatever they are: the spline is refused and
    the report is the empty one. *)
Lemma generate_time_series_data_too_few (pd : list point) :
  (2 <= length pd < 4)%nat ->
  generate_time_series_data rt pd = get_empty_time_series rt.
Proof.
  intros [Hlo Hhi]. unfold generate_time_series_data.
  destruct pd as [| p pd]; [reflexivity |].
  destruct (build_time_series rt (p :: pd)) as [r |] eqn:E; [| reflexivity].
  apply build_time_series_inv in E as (probs & _ & _ & _ & _ & _ & _ & _ & Hi & _).
  destruct (Hi Hlo) as (f & Hf & _).
  rewrite interp1d_too_few in Hf by (rewrite length_map; exact Hhi). discriminate.
Qed.

(** X10. Four points or more, and a spline that SciPy fits: every target
    is evaluated (also outside the range of the samples), clamped and
    rounded, and the entries carry the target timestamps. *)
Lemma generate_time_series_data_interpolated
    (pd : list point) (xs : list pyfloat) (spline : pyfloat -> pyfloat) :
  (4 <= length pd)%nat ->
  as_float_array (map pt_timestamp pd) = Ok xs ->
  make_interp_spline rt xs (map pt_fault_probability pd) = Ok spline ->
  probabilities (generate_time_series_data rt pd)
  = map (fun t => round3 (clip01 (spline (Fin (inject_Z t)))))
        (generate_target_timestamps rt) /\
  map sp_timestamp (timeSeries (generate_time_series_data rt pd))
  = generate_target_timestamps rt.
Proof.
  intros Hlen Hxs Hspline.
  assert (interp1d rt (map pt_timestamp pd) (map pt_fault_probability pd) = Ok spline)
    as Hinterp.
  { unfold interp1d. rewrite Hxs. simpl.
    rewrite (as_float_array_length _ _ Hxs), length_map.
    destruct (Nat.ltb_spec (length pd) 4); [lia | exact Hspline]. }
  assert (exists r, build_time_series rt pd = Ok r) as [r Hr].
  { unfold build_time_series. cbv zeta. rewrite length_map.
    destruct (Nat.leb_spec 2 (length pd)); [| lia].
    rewrite Hinterp. eexists. reflexivity. }
  unfold generate_time_series_data. destruct pd as [| p pd]; [simpl in Hlen; lia |].
  rewrite Hr.
  apply build_time_series_inv in Hr as (probs & _ & _ & Hp & Ht & _ & _ & _ & Hi & _).
  destruct Hi as (f & Hf & ->); [lia |].
  rewrite Hinterp in Hf. injection Hf as <-.
  split; [rewrite Hp, map_map; reflexivity | exact Ht].
Qed.

End Report.

(** ** The claims about the resampler and the report *)

(** C1, at the two points the specification names.  The resampler asks
    SciPy for a cubic spline as soon as there are two points, and SciPy
    refuses one through fewer than four: with [(t=0, p=0.0)] and
    [(t=1000, p=1.0)] nothing is fitted, evaluated or clamped, and the
    report is the empty one, whatever the clock and the spline routine. *)
Theorem two_points_fall_back (rt : runtime) :
  process_raw_data rt [cold_reading; hot_reading] = Ok [cold_point; hot_point] /\
  build_time_series rt [cold_point; hot_point] = Raise ValueError /\
  generate_time_series_data rt [cold_point; hot_point] = get_empty_time_series rt /\
  probabilities (generate_time_series_data rt [cold_point; hot_point])
  = repeat (Fin 0) 11.
Proof. repeat split; reflexivity. Qed.

(** C2, at a batch of two valid readings, one without timestamp (it gets
    the default [0]) and one whose timestamp is a string: the sort, which
    no handler protects, compares the string with [0], and its [TypeError]
    leaves [process_raw_data] and [process_and_export_json]. *)
Theorem process_and_export_json_raises (rt : runtime) :
  collect_points rt [reading_plain; reading_iso]
  = Ok [ {| pt_timestamp := PyInt 0; pt_time := PyStr "";
            pt_temperature := Fin 30;
            pt_fault_probability := Fin (Qred (204 # 1000));
            pt_original_data := reading_plain |};
         {| pt_timestamp := PyStr "2023-12-21T02:30:00Z"; pt_time := PyStr "";
            pt_temperature := Fin 31;
            pt_fault_probability := Fin (Qred (245 # 1000));
            pt_original_data := reading_iso |} ] /\
  process_raw_data rt [reading_plain; reading_iso] = Raise TypeError /\
  process_and_export_json rt [reading_plain; reading_iso] = Raise TypeError.
Proof. repeat split; reflexivity. Qed.


(** C6. A single sanitized point of probability [p] gives eleven copies
    of [p]. *)
Theorem single_point_constant_fill (rt : runtime) (p : point) :
  sanitized p ->
  probabilities (generate_time_series_data rt [p])
  = repeat (pt_fault_probability p) 11.
Proof.
  intros Hs. unfold generate_time_series_data.
  destruct (build_time_series_single rt p) as [r Hr]. rewrite Hr.
  apply build_time_series_inv in Hr as (probs & _ & _ & Hp & _ & _ & _ & _ & _ & H1).
  rewrite Hp, (H1 p eq_refl).
  assert (round3 (pt_fault_probability p) = pt_fault_probability p) as Hround
    by (rewrite Hs; apply temperature_to_percentage_rounded3).
  simpl. rewrite !Hround. reflexivity.
Qed.

(** One point of probability [0.4] gives [[0.4] * 11]. *)
Lemma single_point_constant_fill_witness :
  probabilities (generate_time_series_data sample_runtime [point_0_4])
  = repeat (Fin (2 # 5)) 11.
Proof.
  apply (single_point_constant_fill sample_runtime point_0_4). reflexivity.
Defined.




(** C10. On the path through the [try], [latestData.timestamp] is the
    [time] field of the last sanitized point: the [time] of the record the
    point was made from, and the empty string when that record has no
    [time] key.  When the record's [time] is a string, so is
    [latestData.timestamp]; the epoch kept under [timestamp] is not read. *)
Theorem latest_data_timestamp (rt : runtime)
    (raw : list (gmap string pyval)) (pd : list point) (p : point) (r : report) :
  process_raw_data rt raw = Ok pd ->
  last pd = Some p ->
  build_time_series rt pd = Ok r ->
  generate_time_series_data rt pd = r /\
  ld_timestamp (latestData r) = pt_time p /\
  pt_time p = get (pt_original_data p) "time" (PyStr "") /\
  (pt_original_data p !! "time" = None -> ld_timestamp (latestData r) = PyStr "") /\
  (forall s, pt_original_data p !! "time" = Some (PyStr s) ->
             ld_timestamp (latestData r) = PyStr s).
Proof.
  intros Hpd Hlast Hr.
  assert (pt_time p = get (pt_original_data p) "time" (PyStr "")) as Htime.
  { pose proof (process_raw_data_Forall rt raw pd Hpd) as Hall.
    destruct (proj1 (last_Some pd p) Hlast) as [l' Hl']. rewrite Hl' in Hall.
    apply Forall_app in Hall as [_ Hp].
    apply Forall_cons_iff in Hp as [(_ & Hp & _) _]. exact Hp. }
  assert (ld_timestamp (latestData r) = pt_time p) as Hld.
  { apply build_time_series_inv in Hr as (_ & _ & _ & _ & _ & _ & _ & Hl & _).
    rewrite (Hl p Hlast). reflexivity. }
  split.
  { unfold generate_time_series_data. rewrite Hr.
    destruct pd; [discriminate | reflexivity]. }
  split; [exact Hld |]. split; [exact Htime |].
  split; [intros Hnone | intros s Hsome];
    rewrite Hld, Htime; unfold get; [rewrite Hnone | rewrite Hsome]; reflexivity.
Qed.

Lemma latest_data_timestamp_witness :
  process_raw_data sample_runtime sample_raw = Ok sample_points /\
  pt_timestamp sample_last = PyInt 300 /\
  ld_timestamp (latestData (generate_time_series_data sample_runtime sample_points))
  = PyStr "2023-12-21T00:05:00Z".
Proof.
  split; [reflexivity |]. split; [reflexivity |].
  destruct (latest_data_timestamp sample_runtime sample_raw sample_points sample_last
              (generate_time_series_data sample_runtime sample_points)
              eq_refl eq_refl eq_refl)
    as (_ & _ & _ & _ & Hstr).
  apply Hstr. reflexivity.
Defined.





(** ** The end-to-end run of the specification

    The single reading [26.5], given as a [value] marked as a temperature,
    is normalized to [0.061]; the series is eleven copies of it and the
    latest temperature is [26.5]. *)
Example end_to_end_single_reading :
  exists r,
    process_and_export_json sample_runtime
      [ {[ "timestamp" := PyInt 0; "value" := PyFloat (Fin (53 # 2));
           "field" := PyStr "temperature" ]} ] = Ok r /\
    probabilities r = repeat (Fin (61 # 1000)) 11 /\
    ld_temperature (latestData r) = Fin (53 # 2) /\
    availableWaterJets r = ["WaterJet_01"; "WaterJet_02"; "WaterJet_03"].
Proof. eexists. repeat split; reflexivity. Qed.

(** * Further properties of the processor *)

(** ** The normalizer, closer up *)

Section NormalizerAccuracy.
Local Open Scope Q_scope.

Lemma round_half_even_near (x : Q) :
  inject_Z (round_half_even x) - x <= 1 # 2 /\
  x - inject_Z (round_half_even x) <= 1 # 2.
Proof.
  unfold round_half_even.
  pose proof (Qfloor_le x) as Hlo. pose proof (Qlt_floor x) as Hhi.
  rewrite inject_Z_plus in Hhi. change (inject_Z 1) with 1 in Hhi.
  destruct (Qcompare_spec (x - inject_Z (Qfloor x)) (1 # 2)) as [H | H | H];
    try destruct (Z.even (Qfloor x));
    rewrite ?inject_Z_plus; change (inject_Z 1) with 1; split; lra.
Qed.

(** [round_half_even x] is [0] exactly on [[-1/2, 1/2]], both ends going
    to the even neighbour [0]. *)
Lemma round_half_even_zero (x : Q) :
  round_half_even x = 0%Z <-> - (1 # 2) <= x /\ x <= 1 # 2.
Proof.
  split.
  - intros H. pose proof (round_half_even_near x) as [H1 H2].
    rewrite H in H1, H2. change (inject_Z 0) with 0 in H1, H2. split; lra.
  - intros [Hlo Hhi].
    pose proof (round_half_even_mono _ _ Hlo) as H1.
    pose proof (round_half_even_mono _ _ Hhi) as H2.
    change (round_half_even (- (1 # 2))) with 0%Z in H1.
    change (round_half_even (1 # 2)) with 0%Z in H2. lia.
Qed.

(** [round_half_even x] is [1000] exactly on [[999.5, 1000.5]]. *)
Lemma round_half_even_thousand (x : Q) :
  round_half_even x = 1000%Z <-> 1999 # 2 <= x /\ x <= 2001 # 2.
Proof.
  split.
  - intros H. pose proof (round_half_even_near x) as [H1 H2].
    rewrite H in H1, H2. change (inject_Z 1000) with 1000 in H1, H2. split; lra.
  - intros [Hlo Hhi].
    pose proof (round_half_even_mono _ _ Hlo) as H1.
    pose proof (round_half_even_mono _ _ Hhi) as H2.
    change (round_half_even (1999 # 2)) with 1000%Z in H1.
    change (round_half_even (2001 # 2)) with 1000%Z in H2. lia.
Qed.

Lemma Fin_thousandths_inj (k n : Z) :
  Fin (Qred (k # 1000)) = Fin (inject_Z n) -> k = (1000 * n)%Z.
Proof.
  intros H. injection H as H.
  assert (k # 1000 == inject_Z n) as Hq by (rewrite <- H, Qred_correct; reflexivity).
  unfold Qeq, inject_Z in Hq. simpl in Hq. lia.
Qed.



(** X2. The two saturated results reach into the linear range by half a
    thousandth of its width: a finite temperature is mapped to [0.0]
    exactly when it is at most [25.01225], and to [1.0] exactly when it is
    at least [49.48775]. *)
Theorem temperature_to_percentage_saturation (t : Q) :
  (temperature_to_percentage (Fin t) = Fin 0 <-> t <= 100049 # 4000) /\
  (temperature_to_percentage (Fin t) = Fin 1 <-> 197951 # 4000 <= t).
Proof.
  destruct (temperature_to_percentage_thousandths t) as (k & Hk & E & L & H & M).
  rewrite E.
  assert (Fin (Qred (k # 1000)) = Fin 0 <-> k = 0%Z) as ->.
  { split; [intros H0; apply (Fin_thousandths_inj k 0) in H0; lia | intros ->; reflexivity]. }
  assert (Fin (Qred (k # 1000)) = Fin 1 <-> k = 1000%Z) as ->.
  { split; [intros H0; apply (Fin_thousandths_inj k 1) in H0; lia | intros ->; reflexivity]. }
  destruct (Qlt_le_dec 25 t) as [Hlo | Hlo];
    [destruct (Qlt_le_dec t (99 # 2)) as [Hhi | Hhi] |].
  - rewrite (M Hlo Hhi). unfold thousandths.
    rewrite round_half_even_zero, round_half_even_thousand, !linear_part_eq.
    split; split; intros; try split; lra.
  - rewrite (H Hhi). split; split; intros; try lia; try reflexivity; lra.
  - rewrite (L Hlo). split; split; intros; try lia; try reflexivity; lra.
Qed.

(** X3. The normalizer on every float: [nan] goes to [nan] and nothing
    else does; every other float, the infinities included, goes to a whole
    number of thousandths between [0] and [1]. *)
Theorem temperature_to_percentage_grid (t : pyfloat) :
  is_nan (temperature_to_percentage t) = is_nan t /\
  (is_nan t = false ->
   exists k : Z,
     (0 <= k <= 1000)%Z /\ temperature_to_percentage t = Fin (Qred (k # 1000))).
Proof.
  split; [apply temperature_to_percentage_is_nan |].
  destruct t as [q | | |]; try discriminate; intros _.
  - destruct (temperature_to_percentage_thousandths q) as (k & Hk & E & _). eauto.
  - exists 1000%Z. split; [lia | reflexivity].
  - exists 0%Z. split; [lia | reflexivity].
Qed.

End NormalizerAccuracy.

(** ** The sanitizer, record by record *)

Section Extraction.
Variable rt : runtime.

(** X4. The [field] entry of a record never changes what is extracted from
    it: whatever [field] says, and whether it is there or not, the outcome
    is the same (a [value] is read as a temperature even when [field]
    names another quantity). *)
Theorem process_point_ignores_field (d : gmap string pyval) (fv : pyval) :
  same_reading (process_point rt (<["field" := fv]> d))
               (process_point rt (delete "field" d)).
Proof.
  unfold process_point, contains, subscript, get, mbind, result_bind.
  rewrite !lookup_insert_ne, !lookup_delete_ne by done.
  rewrite lookup_insert_eq, lookup_delete_eq.
  destruct (d !! "temperature") as [v |] eqn:Et; simpl.
  - destruct (py_float rt v); simpl;
      rewrite ?lookup_insert_ne, ?lookup_delete_ne by done; auto.
  - destruct (d !! "value") as [v |] eqn:Ev; simpl.
    + destruct (eq_str fv "temperature"); simpl;
        destruct (py_float rt v); simpl;
        rewrite ?lookup_insert_ne, ?lookup_delete_ne by done; auto.
    + destruct (eq_str fv "temperature"); simpl; auto.
Qed.

(** X5. A record that has a [temperature] entry is judged by it alone: its
    [value] entry is never read, so a usable [value] does not rescue a
    record whose [temperature] cannot be converted. *)
Theorem process_point_temperature_first (d : gmap string pyval) (v w : pyval) :
  d !! "temperature" = Some v ->
  same_reading (process_point rt (<["value" := w]> d))
               (process_point rt (delete "value" d)) /\
  (forall e, py_float rt v = Raise e -> process_point rt (<["value" := w]> d) = Raise e).
Proof.
  intros Ht.
  unfold process_point, contains, subscript, get, mbind, result_bind.
  rewrite !lookup_insert_ne, !lookup_delete_ne by done.
  rewrite Ht. simpl.
  split; [destruct (py_float rt v); simpl;
          rewrite ?lookup_insert_ne, ?lookup_delete_ne by done; auto |].
  intros e ->. reflexivity.
Qed.


(** X7. The sanitizer neither invents nor repeats a record: the records
    its points were made from are, up to the order of the sort, a
    sub-sequence of the input; in particular it returns at most as many
    points as it was given records. *)
Theorem process_raw_data_keeps_records (raw : list (gmap string pyval)) (out : list point) :
  process_raw_data rt raw = Ok out ->
  (length out <= length raw)%nat /\
  exists kept,
    sublist kept raw /\ Permutation kept (map pt_original_data out).
Proof.
  unfold process_raw_data. intros H.
  destruct (collect_points rt raw) as [pts |] eqn:Hc; [| discriminate].
  simpl in H. apply sort_by_timestamp_Permutation in H.
  pose proof (collect_points_sublist rt raw pts Hc) as Hsub.
  split.
  - rewrite <- H, <- (length_map pt_original_data). apply sublist_length, Hsub.
  - exists (map pt_original_data pts). split; [exact Hsub |].
    apply Permutation_map, H.
Qed.

End Extraction.

Lemma process_point_temperature_first_witness :
  process_point sample_runtime (<["value" := PyFloat (Fin 30)]> reading_null_temperature)
  = Raise TypeError /\
  collect_points sample_runtime
    [<["value" := PyFloat (Fin 30)]> reading_null_temperature] = Ok [].
Proof.
  split; [| reflexivity].
  apply (proj2 (process_point_temperature_first sample_runtime
                  reading_null_temperature PyNone (PyFloat (Fin 30)) eq_refl)).
  reflexivity.
Defined.


Lemma process_raw_data_keeps_records_witness :
  (length sample_points <= length sample_raw)%nat /\
  exists kept,
    sublist kept sample_raw /\ Permutation kept (map pt_original_data sample_points).
Proof.
  apply (process_raw_data_keeps_records sample_runtime). reflexivity.
Defined.


(** ** The sort and the latest reading *)

Section SortedBatches.
Variable rt : runtime.

Lemma key_le_refl (p : point) : number_key p -> key_le p p.
Proof.
  intros Hp. apply number_key_nan in Hp. unfold key_le.
  destruct (fle_total (key p) (key p) Hp Hp); assumption.
Qed.

Lemma sort_by_timestamp_sorted (l : list point) :
  Forall number_key l -> StronglySorted key_le l -> sort_by_timestamp l = Ok l.
Proof.
  intros Hkeys Hsorted. induction Hsorted as [| p l Hs IH Hall]; [reflexivity |].
  apply Forall_cons_iff in Hkeys as [Hp Hl].
  simpl. rewrite (IH Hl). simpl.
  destruct l as [| y l']; [reflexivity |].
  apply Forall_cons_iff in Hall as [Hpy _].
  apply Forall_cons_iff in Hl as [Hy _].
  simpl. rewrite (py_lt_number p y Hp Hy). unfold key_le in Hpy. rewrite Hpy.
  reflexivity.
Qed.

(** X8. The sort leaves a batch in time order alone: when the timestamps
    of the collected points are numbers in non-decreasing order, the
    sanitizer returns the points exactly as the loop collected them; and
    sorting the output of the sort once more changes nothing. *)
Theorem process_raw_data_sorted_input (raw : list (gmap string pyval)) (pts : list point) :
  collect_points rt raw = Ok pts ->
  Forall number_key pts ->
  (StronglySorted key_le pts -> process_raw_data rt raw = Ok pts) /\
  (forall out, process_raw_data rt raw = Ok out -> sort_by_timestamp out = Ok out).
Proof.
  intros Hc Hkeys. unfold process_raw_data. rewrite Hc. simpl. split.
  - apply sort_by_timestamp_sorted, Hkeys.
  - intros out Hout.
    destruct (sort_by_timestamp_spec pts Hkeys) as (out' & Hs & Hperm & Hsorted & _).
    rewrite Hs in Hout. injection Hout as <-.
    apply sort_by_timestamp_sorted; [rewrite <- Hperm; exact Hkeys | exact Hsorted].
Qed.

Lemma StronglySorted_last (l : list point) (p : point) :
  StronglySorted key_le (l ++ [p]) -> Forall (fun q => key_le q p) l.
Proof.
  induction l as [| x l IH]; simpl; intros H; [constructor |].
  apply StronglySorted_inv in H as [Hs Hall].
  constructor; [| apply IH, Hs].
  apply Forall_app in Hall as [_ Hp].
  apply Forall_cons_iff in Hp as [Hp _]. exact Hp.
Qed.

(** X9. When the timestamps are numbers other than [nan], the reading
    shown as [latestData] is a newest one: no sanitized point has a later
    timestamp than the point it is taken from, and its [faultProbability]
    is the normalized value of its [temperature]. *)
Theorem latest_data_is_newest
    (raw : list (gmap string pyval)) (pd : list point) (p : point) (r : report) :
  process_raw_data rt raw = Ok pd ->
  Forall number_key pd ->
  last pd = Some p ->
  build_time_series rt pd = Ok r ->
  Forall (fun q => key_le q p) pd /\
  ld_temperature (latestData r) = pt_temperature p /\
  ld_faultProbability (latestData r) = temperature_to_percentage (pt_temperature p).
Proof.
  intros Hpd Hkeys Hlast Hr.
  pose proof (process_raw_data_Forall rt raw pd Hpd) as Hall.
  unfold process_raw_data in Hpd.
  destruct (collect_points rt raw) as [pts |] eqn:Hc; [| discriminate].
  simpl in Hpd.
  pose proof (sort_by_timestamp_Permutation pts pd Hpd) as Hperm.
  assert (Forall number_key pts) as Hkeys' by (rewrite Hperm; exact Hkeys).
  destruct (sort_by_timestamp_spec pts Hkeys') as (out & Hs & _ & Hsorted & _).
  rewrite Hs in Hpd. injection Hpd as ->.
  destruct (proj1 (last_Some pd p) Hlast) as [l' Hl']. subst pd.
  split; [| split].
  - apply Forall_app. split; [apply StronglySorted_last, Hsorted |].
    constructor; [| constructor]. apply key_le_refl.
    apply Forall_app in Hkeys as [_ Hp]. apply Forall_cons_iff in Hp as [Hp _]. exact Hp.
  - apply build_time_series_inv in Hr as (_ & _ & _ & _ & _ & _ & _ & Hl & _).
    rewrite (Hl p Hlast). reflexivity.
  - apply build_time_series_inv in Hr as (_ & _ & _ & _ & _ & _ & _ & Hl & _).
    rewrite (Hl p Hlast). simpl.
    apply Forall_app in Hall as [_ Hp].
    apply Forall_cons_iff in Hp as [(_ & _ & Hp) _]. exact Hp.
Qed.

End SortedBatches.

Lemma process_raw_data_sorted_input_witness :
  process_raw_data sample_runtime [reading_undated; reading_0100; reading_0100_again; reading_0300]
  = Ok sample_points /\
  sort_by_timestamp sample_points = Ok sample_points.
Proof.
  destruct (process_raw_data_sorted_input sample_runtime
              [reading_undated; reading_0100; reading_0100_again; reading_0300]
              sample_points eq_refl) as [H1 H2].
  - repeat constructor; eexists; (split; [reflexivity | reflexivity]).
  - split.
    + apply H1. repeat constructor.
    + apply (H2 sample_points). reflexivity.
Defined.

Lemma latest_data_is_newest_witness :
  Forall (fun q => key_le q sample_last) sample_points /\
  ld_temperature (latestData (generate_time_series_data sample_runtime sample_points))
  = Fin 30 /\
  ld_faultProbability (latestData (generate_time_series_data sample_runtime sample_points))
  = temperature_to_percentage (Fin 30).
Proof.
  apply (latest_data_is_newest sample_runtime sample_raw sample_points sample_last
           (generate_time_series_data sample_runtime sample_points)).
  - reflexivity.
  - repeat constructor; eexists; (split; [reflexivity | reflexivity]).
  - reflexivity.
  - reflexivity.
Defined.

(** ** When the report shows data *)

Section ReportPaths.
Variable rt : runtime.

Lemma interp1d_Ok (x : list pyval) (y : list pyfloat) (f : pyfloat -> pyfloat) :
  interp1d rt x y = Ok f ->
  exists xs,
    as_float_array x = Ok xs /\ (4 <= length x)%nat /\ make_interp_spline rt xs y = Ok f.
Proof.
  unfold interp1d. intros H.
  destruct (as_float_array x) as [xs |] eqn:E; [| discriminate].
  simpl in H. exists xs. rewrite <- (as_float_array_length _ _ E).
  destruct (Nat.ltb_spec (length xs) 4); [discriminate |]. auto.
Qed.

(** X12. On a non-empty input the body of the [try] completes, and the
    report shows data rather than the fallback, in two cases only: there
    is exactly one point; or there are at least four, all their timestamps
    are numbers, and SciPy fits the spline. *)
Theorem build_time_series_completes (pd : list point) :
  (1 <= length pd)%nat ->
  (length pd = 1%nat \/
   ((4 <= length pd)%nat /\
    exists xs spline,
      as_float_array (map pt_timestamp pd) = Ok xs /\
      make_interp_spline rt xs (map pt_fault_probability pd) = Ok spline))
  <-> exists r, build_time_series rt pd = Ok r /\ generate_time_series_data rt pd = r.
Proof.
  intros Hlen. split.
  - intros [H1 | (H4 & xs & spline & Hxs & Hspline)].
    + destruct pd as [| p [| q pd]]; simpl in H1; try lia.
      destruct (build_time_series_single rt p) as [r Hr].
      exists r. split; [exact Hr |]. unfold generate_time_series_data. rewrite Hr. reflexivity.
    + assert (exists r, build_time_series rt pd = Ok r) as [r Hr].
      { unfold build_time_series, interp1d. cbv zeta. rewrite length_map, Hxs.
        destruct (Nat.leb_spec 2 (length pd)); [| lia]. simpl.
        rewrite (as_float_array_length _ _ Hxs), length_map.
        destruct (Nat.ltb_spec (length pd) 4); [lia |].
        rewrite Hspline. eexists. reflexivity. }
      exists r. split; [exact Hr |]. unfold generate_time_series_data. rewrite Hr.
      destruct pd; [simpl in Hlen; lia | reflexivity].
  - intros (r & Hr & _).
    destruct pd as [| p [| q pd]]; [simpl in Hlen; lia | left; reflexivity | right].
    apply build_time_series_inv in Hr as (probs & _ & _ & _ & _ & _ & _ & _ & Hi & _).
    destruct Hi as (f & Hf & _); [simpl; lia |].
    apply interp1d_Ok in Hf as (xs & Hxs & Hge & Hspline).
    rewrite length_map in Hge. eauto.
Qed.


End ReportPaths.

Lemma build_time_series_completes_witness :
  (length sample_points = 1%nat \/
   ((4 <= length sample_points)%nat /\
    exists xs spline,
      as_float_array (map pt_timestamp sample_points) = Ok xs /\
      make_interp_spline sample_runtime xs (map pt_fault_probability sample_points)
      = Ok spline))
  <-> exists r, build_time_series sample_runtime sample_points = Ok r /\
                generate_time_series_data sample_runtime sample_points = r.
Proof.
  apply (build_time_series_completes sample_runtime sample_points). simpl. lia.
Defined.

Lemma generate_time_series_data_interpolated_witness :
  probabilities (generate_time_series_data sample_runtime sample_points)
  = repeat (Fin 0) 11 /\
  map sp_timestamp (timeSeries (generate_time_series_data sample_runtime sample_points))
  = generate_target_timestamps sample_runtime.
Proof.
  destruct (generate_time_series_data_interpolated sample_runtime sample_points _ _
              ltac:(simpl; lia) eq_refl eq_refl) as [H1 H2].
  split; [| exact H2]. rewrite H1. reflexivity.
Defined.

Lemma generate_time_series_data_too_few_witness :
  generate_time_series_data sample_runtime [cold_point; hot_point; sample_last]
  = get_empty_time_series sample_runtime.
Proof.
  apply (generate_time_series_data_too_few sample_runtime). simpl. lia.
Defined.


(** ** The fetcher *)

Section Fetcher.

Lemma copy_columns_lookup (keep : string -> bool) (values : list (string * pyval))
    (data_point : gmap string pyval) (key : string) :
  copy_columns keep values data_point !! key
  = match (if keep key then column values key else None) with
    | Some v => Some v
    | None => data_point !! key
    end.
Proof.
  revert data_point. induction values as [| [k v] values IH]; intros data_point.
  - simpl. destruct (keep key); reflexivity.
  - unfold copy_columns in *. simpl foldl. rewrite IH. simpl column.
    destruct (keep key) eqn:Hkeep; [| destruct (keep k) eqn:Hk; [| reflexivity]].
    + destruct (column values key) as [w |]; [reflexivity |].
      destruct (String.eqb_spec k key) as [-> | Hne].
      * rewrite Hkeep, lookup_insert_eq. reflexivity.
      * destruct (keep k); [rewrite lookup_insert_ne by exact Hne |]; reflexivity.
    + apply lookup_insert_ne. intros ->. congruence.
Qed.

Lemma data_point_literal_Ok (r : flux_record) (d : gmap string pyval) :
  data_point_literal r = Ok d ->
  exists iso epoch f v m,
    rec_time r = Ok (iso, epoch) /\ rec_field r = Ok f /\
    rec_value r = Ok v /\ rec_measurement r = Ok m /\
    d = <["timestamp" := PyInt epoch]>
        (<["_measurement" := m]>
         (<["_value" := v]>
          (<["_field" := f]>
           (<["time" := PyStr iso]> ∅)))).
Proof.
  unfold data_point_literal, mbind, result_bind.
  destruct (rec_time r) as [[iso epoch] |]; [| discriminate].
  destruct (rec_field r) as [f |]; [| discriminate].
  destruct (rec_value r) as [v |]; [| discriminate].
  destruct (rec_measurement r) as [m |]; [| discriminate].
  intros H. injection H as <-. exists iso, epoch, f, v, m. auto.
Qed.

(** X15. What a data point of [fetch_data_with_sql] holds.  The field,
    the value and the measurement are always the ones the accessors
    returned; no entry is kept under [_time] or under a name starting with
    [_start] or [_stop]; a column named [time] or [timestamp] replaces the
    text or the epoch computed from the time of the row; and every other
    column of the row is copied under its name. *)
Theorem data_point_current_entries (r : flux_record) (d : gmap string pyval) :
  data_point_current r = Ok d ->
  exists iso epoch f v m,
    rec_time r = Ok (iso, epoch) /\ rec_field r = Ok f /\
    rec_value r = Ok v /\ rec_measurement r = Ok m /\
    d !! "_field" = Some f /\ d !! "_value" = Some v /\ d !! "_measurement" = Some m /\
    d !! "time" = Some (default (PyStr iso) (column (rec_values r) "time")) /\
    d !! "timestamp" = Some (default (PyInt epoch) (column (rec_values r) "timestamp")) /\
    d !! "_time" = None /\
    (forall key, String.prefix "_start" key = true \/ String.prefix "_stop" key = true ->
                 d !! key = None) /\
    (forall key, keep_current key = true -> key <> "time" -> key <> "timestamp" ->
                 d !! key = column (rec_values r) key).
Proof.
  unfold data_point_current. intros H.
  destruct (data_point_literal r) as [lit |] eqn:Hlit; [| discriminate].
  simpl in H. injection H as <-.
  destruct (data_point_literal_Ok r lit Hlit) as (iso & epoch & f & v & m & Ht & Hf & Hv & Hm & ->).
  exists iso, epoch, f, v, m.
  repeat (split; [assumption |]).
  repeat split; try (rewrite copy_columns_lookup; simpl; reflexivity).
  - rewrite copy_columns_lookup. simpl.
    destruct (column (rec_values r) "time"); reflexivity.
  - rewrite copy_columns_lookup. simpl.
    destruct (column (rec_values r) "timestamp"); reflexivity.
  - intros key Hkey. rewrite copy_columns_lookup.
    assert (keep_current key = false) as ->.
    { unfold keep_current. destruct Hkey as [-> | ->];
        rewrite ?andb_false_r; reflexivity. }
    assert (forall s : string, String.prefix s key = true -> forall k : string,
              String.prefix s k = false -> k <> key) as Hne.
    { intros s Hs k Hk ->. congruence. }
    destruct Hkey as [Hkey | Hkey];
      rewrite !lookup_insert_ne by (apply (Hne _ Hkey); reflexivity);
      apply lookup_empty.
  - intros key Hkeep Htime Hstamp. rewrite copy_columns_lookup, Hkeep.
    destruct (column (rec_values r) key) as [w |]; [reflexivity |].
    unfold keep_current in Hkeep.
    apply andb_prop in Hkeep as [Hkeep _]. apply andb_prop in Hkeep as [Hkeep _].
    apply negb_true_iff in Hkeep. simpl in Hkeep.
    repeat (apply orb_false_elim in Hkeep as [? Hkeep]).
    rewrite !lookup_insert_ne;
      [apply lookup_empty | congruence | | | | congruence];
      intros <-; rewrite String.eqb_refl in *; discriminate.
Qed.

End Fetcher.

Lemma data_point_current_entries_witness :
  exists d,
    data_point_current sample_record = Ok d /\
    d !! "_value" = Some (PyFloat (Fin (53 # 2))) /\
    d !! "timestamp" = Some (PyInt 1703125800) /\
    d !! "waterjet_id" = Some (PyStr "WaterJet_01") /\
    d !! "value" = None.
Proof.
  destruct (data_point_current sample_record) as [d |] eqn:Hd; [| discriminate].
  destruct (data_point_current_entries sample_record d Hd)
    as (iso & epoch & f & v & m & Ht & Hf & Hv & Hm & _ & Hval & _ & _ & Hstamp & _ & _ & Hcol).
  exists d. split; [reflexivity |].
  injection Ht as <- <-. injection Hv as <-.
  split; [exact Hval |]. split; [exact Hstamp |].
  split; apply Hcol; (reflexivity || discriminate).
Defined.

(** ** From the database to the dashboard *)

Section Dashboard.
Variable rt : runtime.

Lemma process_point_no_reading (d : gmap string pyval) :
  d !! "temperature" = None -> d !! "value" = None -> process_point rt d = Ok None.
Proof.
  intros Ht Hv. unfold process_point, contains. rewrite Ht, Hv. reflexivity.
Qed.

Lemma collect_points_no_reading (l : list (gmap string pyval)) :
  Forall (fun d => d !! "temperature" = None /\ d !! "value" = None) l ->
  collect_points rt l = Ok [].
Proof.
  induction 1 as [| d l [Ht Hv] _ IH]; [reflexivity |].
  simpl. rewrite (process_point_no_reading d Ht Hv). exact IH.
Qed.

Lemma empty_dashboard (l : list (gmap string pyval)) :
  Forall (fun d => d !! "temperature" = None /\ d !! "value" = None) l ->
  process_and_export_json rt l = Ok (get_empty_time_series rt).
Proof.
  intros H. unfold process_and_export_json, process_raw_data.
  rewrite (collect_points_no_reading l H). reflexivity.
Qed.

Lemma data_point_literal_no_reading (r : flux_record) (d : gmap string pyval) :
  data_point_literal r = Ok d -> d !! "temperature" = None /\ d !! "value" = None.
Proof.
  intros H. apply data_point_literal_Ok in H as (iso & epoch & f & v & m & _ & _ & _ & _ & ->).
  split; rewrite !lookup_insert_ne by done; apply lookup_empty.
Qed.

Lemma data_point_current_no_reading (r : flux_record) (d : gmap string pyval) :
  no_reading_column r = true ->
  data_point_current r = Ok d -> d !! "temperature" = None /\ d !! "value" = None.
Proof.
  unfold no_reading_column, data_point_current. intros Hcol H.
  destruct (data_point_literal r) as [lit |] eqn:Hlit; [| discriminate].
  simpl in H. injection H as <-.
  destruct (data_point_literal_no_reading r lit Hlit) as [Ht Hv].
  destruct (column (rec_values r) "temperature") eqn:Ect; [discriminate |].
  destruct (column (rec_values r) "value") eqn:Ecv; [discriminate |].
  rewrite !copy_columns_lookup, Ect, Ecv. simpl. auto.
Qed.

Lemma build_all_Forall (build : flux_record -> result (gmap string pyval))
    (P : flux_record -> Prop) (Q : gmap string pyval -> Prop)
    (records : list flux_record) (l : list (gmap string pyval)) :
  (forall r d, P r -> build r = Ok d -> Q d) ->
  Forall P records -> build_all build records = Ok l -> Forall Q l.
Proof.
  intros Hbuild Hall. revert l.
  induction Hall as [| r records Hr _ IH]; simpl; intros l H.
  - injection H as <-. constructor.
  - destruct (build r) as [d |] eqn:Hd; [| discriminate].
    destruct (build_all build records) as [ds |]; [| discriminate].
    simpl in H. injection H as <-.
    constructor; [eapply Hbuild; eassumption | apply IH; reflexivity].
Qed.

(** X16. The sanitizer finds no temperature in what the fetcher stores.
    A data point of the polling query is passed over unless its row has a
    column named [temperature] or [value] (the reading itself is stored
    under [_value]); a data point of the backup query is always passed
    over.  On such data the pipeline returns the empty report. *)
Theorem fetched_points_are_skipped (records : list flux_record)
    (l : list (gmap string pyval)) :
  (build_all data_point_current records = Ok l ->
   forallb no_reading_column records = true ->
   process_raw_data rt l = Ok [] /\
   process_and_export_json rt l = Ok (get_empty_time_series rt)) /\
  (build_all data_point_backup records = Ok l ->
   process_raw_data rt l = Ok [] /\
   process_and_export_json rt l = Ok (get_empty_time_series rt)).
Proof.
  assert (forall l0, Forall (fun d => d !! "temperature" = None /\ d !! "value" = None) l0 ->
            process_raw_data rt l0 = Ok [] /\
            process_and_export_json rt l0 = Ok (get_empty_time_series rt)) as Hempty.
  { intros l0 H. split; [| apply empty_dashboard, H].
    unfold process_raw_data. rewrite (collect_points_no_reading l0 H). reflexivity. }
  split.
  - intros Hl Hcols. apply Hempty.
    apply (build_all_Forall data_point_current (fun r => no_reading_column r = true) _ records);
      [apply data_point_current_no_reading | | exact Hl].
    apply Forall_forall. intros r Hr.
    rewrite forallb_forall in Hcols. apply Hcols, list_elem_of_In, Hr.
  - intros Hl. apply Hempty.
    apply (build_all_Forall data_point_backup (fun _ => True) _ records);
      [intros r d _; apply data_point_literal_no_reading | | exact Hl].
    apply Forall_forall. auto.
Qed.

Lemma fetch_data_with_sql_no_reading (db : database) (stored : list (gmap string pyval)) :
  plain_rows db = true ->
  Forall (fun d => d !! "temperature" = None /\ d !! "value" = None) stored ->
  Forall (fun d => d !! "temperature" = None /\ d !! "value" = None)
         (fetch_data_with_sql db stored).
Proof.
  unfold plain_rows, fetch_data_with_sql, try_backup_query, build_tables, mbind, result_bind.
  intros Hplain Hstored.
  destruct (query_main db) as [tables |].
  - destruct (build_all data_point_current (concat tables)) as [l |] eqn:Hl.
    + apply (build_all_Forall data_point_current (fun r => no_reading_column r = true)
               _ (concat tables)); [apply data_point_current_no_reading | | exact Hl].
      apply Forall_forall. intros r Hr.
      rewrite forallb_forall in Hplain. apply Hplain, list_elem_of_In, Hr.
    + destruct (query_backup db) as [tables' |]; [| exact Hstored].
      destruct (build_all data_point_backup (concat tables')) as [l' |] eqn:Hl';
        [| exact Hstored].
      apply (build_all_Forall data_point_backup (fun _ => True) _ (concat tables'));
        [intros r d _; apply data_point_literal_no_reading | | exact Hl'].
      apply Forall_forall. auto.
  - destruct (query_backup db) as [tables' |]; [| exact Hstored].
    destruct (build_all data_point_backup (concat tables')) as [l' |] eqn:Hl';
      [| exact Hstored].
    apply (build_all_Forall data_point_backup (fun _ => True) _ (concat tables'));
      [intros r d _; apply data_point_literal_no_reading | | exact Hl'].
    apply Forall_forall. auto.
Qed.

(** X17. The live dashboard of a database whose rows have no column named
    [temperature] or [value]: after any number of polls, starting from the
    empty store, whatever the queries return or raise, the endpoint answers
    200 with the empty report. *)
Theorem current_dashboard_is_empty (dbs : list database) :
  forallb plain_rows dbs = true ->
  get_current_dashboard rt (polls dbs [])
  = (200, Success (get_empty_time_series rt) (now_iso rt)).
Proof.
  intros Hdbs.
  assert (Forall (fun d => d !! "temperature" = None /\ d !! "value" = None)
                 (polls dbs [])) as Hinv.
  { unfold polls.
    assert (Forall (fun d : gmap string pyval =>
                      d !! "temperature" = None /\ d !! "value" = None) []) as Hnil
      by constructor.
    revert Hnil. generalize (@nil (gmap string pyval)) as stored.
    induction dbs as [| db dbs' IH]; intros stored Hstored; [exact Hstored |].
    simpl in Hdbs. apply andb_prop in Hdbs as [Hdb Hdbs'].
    simpl. apply IH; [exact Hdbs' |].
    apply fetch_data_with_sql_no_reading; assumption. }
  unfold get_current_dashboard. rewrite (empty_dashboard _ Hinv). reflexivity.
Qed.

End Dashboard.

Lemma fetched_points_are_skipped_witness :
  exists l,
    build_all data_point_current [sample_record; sample_record] = Ok l /\
    length l = 2%nat /\
    process_raw_data sample_runtime l = Ok [] /\
    process_and_export_json sample_runtime l = Ok (get_empty_time_series sample_runtime).
Proof.
  destruct (build_all data_point_current [sample_record; sample_record]) as [l |] eqn:Hl;
    [| discriminate].
  exists l. split; [reflexivity |].
  split; [vm_compute in Hl; injection Hl as <-; reflexivity |].
  apply (proj1 (fetched_points_are_skipped sample_runtime [sample_record; sample_record] l));
    [exact Hl | reflexivity].
Defined.

Lemma current_dashboard_is_empty_witness :
  get_current_dashboard sample_runtime (polls [sample_database; sample_database] [])
  = (200, Success (get_empty_time_series sample_runtime) (now_iso sample_runtime)).
Proof.
  apply (current_dashboard_is_empty sample_runtime [sample_database; sample_database]).
  reflexivity.
Defined.

(** ** A poll, and the historical endpoint *)

Section Polling.

Lemma build_all_Forall2 (build : flux_record -> result (gmap string pyval))
    (records : list flux_record) (l : list (gmap string pyval)) :
  build_all build records = Ok l ->
  Forall2 (fun r d => build r = Ok d) records l.
Proof.
  revert l. induction records as [| r records IH]; simpl; intros l H.
  - injection H as <-. constructor.
  - destruct (build r) as [d |] eqn:Hd; [| discriminate].
    destruct (build_all build records) as [ds |]; [| discriminate].
    simpl in H. injection H as <-. constructor; [exact Hd | apply IH; reflexivity].
Qed.

Lemma data_point_current_readable (r : flux_record) :
  readable r = true -> exists d, data_point_current r = Ok d.
Proof.
  unfold readable, data_point_current, data_point_literal, mbind, result_bind.
  destruct (rec_time r), (rec_field r), (rec_value r), (rec_measurement r);
    try discriminate.
  eauto.
Qed.

Lemma build_all_readable (records : list flux_record) :
  forallb readable records = true ->
  exists l, build_all data_point_current records = Ok l.
Proof.
  induction records as [| r records IH]; simpl; intros H; [eauto |].
  apply andb_prop in H as [Hr Hrs].
  destruct (data_point_current_readable r Hr) as [d ->].
  destruct (IH Hrs) as [l ->]. simpl. eauto.
Qed.

(** X20. A poll replaces the store as a whole or not at all.  After
    [fetch_data_with_sql] the store holds, row by row and in the order of
    the rows, the data points of the polling query, or those of the backup
    query, or else its old content; it never holds part of a result.  When
    the polling query returns and every accessor of every row returns, the
    store holds the data points of that query, whatever it held before. *)
Theorem fetch_data_with_sql_all_or_nothing (db : database)
    (stored : list (gmap string pyval)) :
  ((exists tables,
      query_main db = Ok tables /\
      Forall2 (fun r d => data_point_current r = Ok d)
              (concat tables) (fetch_data_with_sql db stored)) \/
   (exists tables,
      query_backup db = Ok tables /\
      Forall2 (fun r d => data_point_backup r = Ok d)
              (concat tables) (fetch_data_with_sql db stored)) \/
   fetch_data_with_sql db stored = stored) /\
  (forall tables,
     query_main db = Ok tables ->
     forallb readable (concat tables) = true ->
     Forall2 (fun r d => data_point_current r = Ok d)
             (concat tables) (fetch_data_with_sql db stored)).
Proof.
  unfold fetch_data_with_sql, try_backup_query, build_tables, mbind, result_bind.
  split.
  - destruct (query_main db) as [tables |].
    + destruct (build_all data_point_current (concat tables)) as [l |] eqn:Hl.
      * left. exists tables. split; [reflexivity | apply build_all_Forall2, Hl].
      * right. destruct (query_backup db) as [tables' |]; [| right; reflexivity].
        destruct (build_all data_point_backup (concat tables')) as [l' |] eqn:Hl';
          [| right; reflexivity].
        left. exists tables'. split; [reflexivity | apply build_all_Forall2, Hl'].
    + right. destruct (query_backup db) as [tables' |]; [| right; reflexivity].
      destruct (build_all data_point_backup (concat tables')) as [l' |] eqn:Hl';
        [| right; reflexivity].
      left. exists tables'. split; [reflexivity | apply build_all_Forall2, Hl'].
  - intros tables -> Hread.
    destruct (build_all_readable _ Hread) as [l Hl]. rewrite Hl.
    apply build_all_Forall2, Hl.
Qed.

Variable rt : runtime.

(** X18. The historical endpoint answers 400 exactly when the request has
    no [start_date] or an empty one, and then without asking the
    database: the answer is the same for every database. *)
Theorem historical_dashboard_start_date (db : database) (args : gmap string string) :
  ((get_historical_dashboard rt db args).1 = 400
   <-> truthy (args !! "start_date") = false) /\
  (truthy (args !! "start_date") = false ->
   forall db', get_historical_dashboard rt db' args = (400, MissingStartDate)).
Proof.
  unfold get_historical_dashboard.
  destruct (args !! "start_date") as [start |]; simpl.
  - destruct (negb (String.eqb start "")); simpl.
    + split; [| discriminate].
      destruct (process_and_export_json rt _); simpl; split; discriminate.
    + split; [split; reflexivity | reflexivity].
  - split; [split; reflexivity | reflexivity].
Qed.

(** X19. A failure of the historical query does not show: when the query
    raises, the endpoint answers 200 with the empty report, the very
    answer it gives when the query returns no row. *)
Theorem historical_dashboard_masks_failure (db db' : database)
    (args : gmap string string) (start : string) (e : exn) :
  args !! "start_date" = Some start ->
  truthy (Some start) = true ->
  query_history db start (default (date_str rt 0) (args !! "end_date"))
                (if truthy (args !! "waterjet_id") then args !! "waterjet_id" else None)
  = Raise e ->
  query_history db' start (default (date_str rt 0) (args !! "end_date"))
                (if truthy (args !! "waterjet_id") then args !! "waterjet_id" else None)
  = Ok [] ->
  get_historical_dashboard rt db args
  = (200, SuccessHistory (get_empty_time_series rt) start
            (args !! "end_date") (args !! "waterjet_id")) /\
  get_historical_dashboard rt db' args = get_historical_dashboard rt db args.
Proof.
  intros Hstart Htruthy Hraise Hnone.
  unfold get_historical_dashboard, fetch_historical_data_sql. rewrite Hstart, Htruthy.
  assert (forall o : option string,
            match o with None => date_str rt 0 | Some e0 => e0 end
            = default (date_str rt 0) o) as Hdef by (intros [|]; reflexivity).
  rewrite !Hdef, Hraise, Hnone. split; reflexivity.
Qed.

End Polling.

Lemma fetch_data_with_sql_all_or_nothing_witness :
  Forall2 (fun r d => data_point_current r = Ok d)
          [sample_record; sample_record]
          (fetch_data_with_sql sample_database [reading_plain]).
Proof.
  apply (proj2 (fetch_data_with_sql_all_or_nothing sample_database [reading_plain])
           [[sample_record; sample_record]]); reflexivity.
Defined.

Lemma historical_dashboard_masks_failure_witness :
  get_historical_dashboard sample_runtime sample_database sample_args
  = (200, SuccessHistory (get_empty_time_series sample_runtime) "2023-12-01"
            None (Some "WaterJet_01")) /\
  get_historical_dashboard sample_runtime empty_database sample_args
  = get_historical_dashboard sample_runtime sample_database sample_args.
Proof.
  exact (historical_dashboard_masks_failure sample_runtime sample_database empty_database
           sample_args "2023-12-01" ValueError eq_refl eq_refl eq_refl eq_refl).
Defined.

Section History.
Variable rt : runtime.

Lemma data_point_history_no_reading (r : flux_record) (d : gmap string pyval) :
  no_reading_column r = true ->
  data_point_history r = Ok d -> d !! "temperature" = None /\ d !! "value" = None.
Proof.
  unfold no_reading_column, data_point_history. intros Hcol H.
  destruct (data_point_literal r) as [lit |] eqn:Hlit; [| discriminate].
  simpl in H. injection H as <-.
  destruct (data_point_literal_no_reading r lit Hlit) as [Ht Hv].
  destruct (column (rec_values r) "temperature") eqn:Ect; [discriminate |].
  destruct (column (rec_values r) "value") eqn:Ecv; [discriminate |].
  rewrite !copy_columns_lookup, Ect, Ecv. simpl. auto.
Qed.

(** X21. The historical dashboard of a database whose rows have no column
    named [temperature] or [value]: for every request with a [start_date],
    whether the query returns rows or raises, the endpoint answers 200
    with the empty report. *)
Theorem historical_dashboard_is_empty (db : database)
    (args : gmap string string) (start : string) :
  args !! "start_date" = Some start ->
  truthy (Some start) = true ->
  match query_history db start (default (date_str rt 0) (args !! "end_date"))
          (if truthy (args !! "waterjet_id") then args !! "waterjet_id" else None) with
  | Ok tables => forallb no_reading_column (concat tables)
  | Raise _ => true
  end = true ->
  get_historical_dashboard rt db args
  = (200, SuccessHistory (get_empty_time_series rt) start
            (args !! "end_date") (args !! "waterjet_id")).
Proof.
  intros Hstart Htruthy Hrows.
  unfold get_historical_dashboard. rewrite Hstart, Htruthy.
  assert (Forall (fun d => d !! "temperature" = None /\ d !! "value" = None)
                 (fetch_historical_data_sql rt db start (args !! "end_date")
                                            (args !! "waterjet_id"))) as Hinv.
  { unfold fetch_historical_data_sql, build_tables, mbind, result_bind.
    assert (forall o : option string,
              match o with None => date_str rt 0 | Some e0 => e0 end
              = default (date_str rt 0) o) as Hdef by (intros [|]; reflexivity).
    rewrite Hdef.
    destruct (query_history db start _ _) as [tables |]; [| constructor].
    destruct (build_all data_point_history (concat tables)) as [l |] eqn:Hl;
      [| constructor].
    apply (build_all_Forall data_point_history (fun r => no_reading_column r = true)
             _ (concat tables)); [apply data_point_history_no_reading | | exact Hl].
    apply Forall_forall. intros r Hr.
    rewrite forallb_forall in Hrows. apply Hrows, list_elem_of_In, Hr. }
  rewrite (empty_dashboard rt _ Hinv). reflexivity.
Qed.

End History.

Lemma historical_dashboard_is_empty_witness :
  get_historical_dashboard sample_runtime history_database sample_args
  = (200, SuccessHistory (get_empty_time_series sample_runtime) "2023-12-01"
            None (Some "WaterJet_01")).
Proof.
  exact (historical_dashboard_is_empty sample_runtime history_database sample_args
           "2023-12-01" eq_refl eq_refl eq_refl).
Defined.
